(** * ProtExtract helper scripts: a shallow embedding

    The four scripts under [ProtExtract_files/] are straight-line Python
    programs.  Each becomes a Rocq function from what the script reads
    (the lines of a list file, the records of a FASTA file, the entries
    of a directory) to what it writes, or to the exception that aborts it.

    Python [str] is modelled by [string], for ASCII text: a character is
    an [ascii], with the ASCII rules for white space, digits and letter
    case; the characters from 128 on stand for themselves only.  A text file
    is the list of its lines as Python iterates them, each with its line
    break; a FASTA file is the list of the records that [SeqIO.parse] yields;
    a directory is the list of its entries in the order of [os.listdir],
    each a name with the content of the file.  Opening, reading and writing
    files are outside the model.

    The collaborators that are not part of the repository are modelled
    from their own sources, each in a module of its own:
    - [Py]: the built-ins [str.split], [str.strip], [in], [str.endswith],
      [str.rsplit], [str.lower], list indexing, [sorted], [dict.setdefault];
    - [Natsort]: the key of [natsort.natsorted] under its default algorithm;
    - [SeqIO]: Biopython's [SeqRecord], the record the FASTA parser builds
      from a title line, and the FASTA writer. *)

From Stdlib Require Import Ascii String NArith List Sorted Permutation Lia Bool.
From stdpp Require Import base list strings gmap.

(** ** Exceptions and results *)

Inductive exn : Type :=
| IndexError
| ValueError
| TypeError.

Inductive result (A : Type) : Type :=
| Ok (a : A)
| Raise (e : exn).

Arguments Ok {A} a.
Arguments Raise {A} e.

#[global] Instance result_bind : MBind result := fun A B k r =>
  match r with
  | Ok a => k a
  | Raise e => Raise e
  end.

(** A [for] loop whose body may raise: the first exception ends the loop. *)
Fixpoint for_each {S A : Type} (body : S -> A -> result S) (s : S) (l : list A)
  : result S :=
  match l with
  | [] => Ok s
  | x :: l' => s' ← body s x; for_each body s' l'
  end.

(** ** Python built-ins *)

Module Py.

(** [c.isspace()] on ASCII: TAB, LF, VT, FF, CR, FS, GS, RS, US and space. *)
Definition isspace (c : ascii) : bool :=
  let n := N_of_ascii c in
  ((9 <=? n) && (n <=? 13) || (28 <=? n) && (n <=? 32))%N.

Definition isdigit (c : ascii) : bool :=
  let n := N_of_ascii c in ((48 <=? n) && (n <=? 57))%N.

Definition lower_char (c : ascii) : ascii :=
  let n := N_of_ascii c in
  if ((65 <=? n) && (n <=? 90))%N then ascii_of_N (n + 32) else c.

(** [s.lower()] *)
Fixpoint lower (s : string) : string :=
  match s with
  | EmptyString => EmptyString
  | String c s' => String (lower_char c) (lower s')
  end.

(** Every character of [s] satisfies [p]. *)
Fixpoint all_chars (p : ascii -> bool) (s : string) : bool :=
  match s with
  | EmptyString => true
  | String c s' => p c && all_chars p s'
  end.

Definition flush (cur : string) : list string :=
  match cur with
  | EmptyString => []
  | _ => [cur]
  end.

(** [s.split()] with no argument: the maximal runs of non-space characters.
    [cur] is the token being read. *)
Fixpoint split_from (cur s : string) : list string :=
  match s with
  | EmptyString => flush cur
  | String c s' =>
      if isspace c then flush cur ++ split_from "" s'
      else split_from (cur +:+ String c "") s'
  end.

Definition split (s : string) : list string := split_from "" s.

Fixpoint lstrip (s : string) : string :=
  match s with
  | EmptyString => EmptyString
  | String c s' => if isspace c then lstrip s' else s
  end.

Fixpoint rstrip (s : string) : string :=
  match s with
  | EmptyString => EmptyString
  | String c s' =>
      match rstrip s' with
      | EmptyString => if isspace c then EmptyString else String c ""
      | r => String c r
      end
  end.

(** [s.strip()] *)
Definition strip (s : string) : string := rstrip (lstrip s).

(** [s.startswith(p)] *)
Fixpoint startswith (s p : string) {struct p} : bool :=
  match p, s with
  | EmptyString, _ => true
  | String _ _, EmptyString => false
  | String a p', String b s' => if Ascii.eqb a b then startswith s' p' else false
  end.

(** [sub in s] on strings: [sub] starts at some position of [s]. *)
Fixpoint str_in (sub s : string) : bool :=
  startswith s sub ||
  match s with
  | EmptyString => false
  | String _ s' => str_in sub s'
  end.

(** [s.endswith(suffix)] *)
Fixpoint endswith (s suffix : string) : bool :=
  String.eqb s suffix ||
  match s with
  | EmptyString => false
  | String _ s' => endswith s' suffix
  end.

(** [s.endswith((suffix1, suffix2, ...))] *)
Definition endswith_any (s : string) (suffixes : list string) : bool :=
  existsb (endswith s) suffixes.

(** The part of [s] before its last [sep], when [sep] occurs in [s]. *)
Fixpoint before_last (sep : ascii) (s : string) : option string :=
  match s with
  | EmptyString => None
  | String c s' =>
      match before_last sep s' with
      | Some t => Some (String c t)
      | None => if Ascii.eqb c sep then Some EmptyString else None
      end
  end.

(** [s.rsplit(sep, 1)[0]] for a one-character [sep]: [s] itself when [sep]
    does not occur. *)
Definition rsplit1_head (sep : ascii) (s : string) : string :=
  match before_last sep s with
  | Some t => t
  | None => s
  end.

(** [l[i]] *)
Definition index {A : Type} (l : list A) (i : nat) : result A :=
  match l !! i with
  | Some x => Ok x
  | None => Raise IndexError
  end.

(** [a, b = l]: unpacking into two names. *)
Definition unpack2 {A : Type} (l : list A) : result (A * A) :=
  match l with
  | [a; b] => Ok (a, b)
  | _ => Raise ValueError
  end.

(** [d.setdefault(k, []).append(v)] on a dictionary that is only looked up
    by key. *)
Definition setdefault_append {V : Type} (k : string) (v : V)
    (d : gmap string (list V)) : gmap string (list V) :=
  <[k := default [] (d !! k) ++ [v]]> d.

(** The same statement on a dictionary that is iterated later: Python keeps
    the keys in the order of their first insertion. *)
Fixpoint odict_setdefault_append {V : Type} (k : string) (v : V)
    (d : list (string * list V)) : list (string * list V) :=
  match d with
  | [] => [(k, [v])]
  | (k', vs) :: d' =>
      if String.eqb k' k then (k', vs ++ [v]) :: d'
      else (k', vs) :: odict_setdefault_append k v d'
  end.

(** [sorted(l, key=key)]: a stable sort that compares keys with [<] only.
    Elements are inserted from the right, each in front of the first
    element whose key is not smaller than its own. *)
Section Sorted.
Context {A K : Type} (key : A -> K) (ltb : K -> K -> bool).

Fixpoint insert_sorted (x : A) (l : list A) : list A :=
  match l with
  | [] => [x]
  | y :: l' =>
      if ltb (key y) (key x) then y :: insert_sorted x l'
      else x :: y :: l'
  end.

Definition sorted (l : list A) : list A := fold_right insert_sorted [] l.
End Sorted.

End Py.

(** ** natsort *)

Module Natsort.

(** An element of a key: text, or the value of a run of digits. *)
Inductive chunk : Type :=
| Txt (s : string)
| Num (n : N).

(** [re.split("([0-9]+)", s)]: the text around the runs of digits and the
    runs themselves, in turn, starting and ending with text (that may be
    empty).  [cur] is the piece being read, [in_num] tells its kind. *)
Fixpoint re_split_from (in_num : bool) (cur s : string) : list string :=
  match s with
  | EmptyString => if in_num then [cur; ""] else [cur]
  | String c s' =>
      if Py.isdigit c then
        if in_num then re_split_from true (cur +:+ String c "") s'
        else cur :: re_split_from true (String c "") s'
      else
        if in_num then cur :: re_split_from false (String c "") s'
        else re_split_from false (cur +:+ String c "") s'
  end.

Definition re_split (s : string) : list string := re_split_from false "" s.

(** The truth value of a string: [filter(None, pieces)] keeps the pieces
    that are not empty. *)
Definition nonempty (s : string) : bool :=
  match s with
  | EmptyString => false
  | _ => true
  end.

(** [int(s)] on a run of digits. *)
Fixpoint int_from (acc : N) (s : string) : N :=
  match s with
  | EmptyString => acc
  | String c s' => int_from (acc * 10 + (N_of_ascii c - 48)) s'
  end.

Definition int (s : string) : N := int_from 0 s.

(** A piece becomes a number when [int] accepts it. *)
Definition component (piece : string) : chunk :=
  if nonempty piece && Py.all_chars Py.isdigit piece then Num (int piece)
  else Txt piece.

Definition is_num (c : chunk) : bool :=
  match c with
  | Num _ => true
  | Txt _ => false
  end.

Fixpoint sep_between (prev : chunk) (l : list chunk) : list chunk :=
  match l with
  | [] => []
  | x :: l' =>
      (if is_num prev && is_num x then [Txt ""] else []) ++ x :: sep_between x l'
  end.

(** [sep_inserter]: an empty text in front of a leading number and between
    two numbers in a row. *)
Definition sep_inserter (l : list chunk) : list chunk :=
  match l with
  | [] => []
  | first :: rest =>
      (if is_num first then [Txt ""] else []) ++ first :: sep_between first rest
  end.

(** The key of a string under [ns.DEFAULT]: split, drop the empty pieces,
    convert the runs of digits, insert the separators. *)
Definition natsort_key (s : string) : list chunk :=
  sep_inserter (map component (List.filter nonempty (re_split s))).

(** Python's [==] and [<] on the elements of a key; [<] between a string and
    a number raises. *)
Definition chunk_eqb (a b : chunk) : bool :=
  match a, b with
  | Txt s, Txt t => String.eqb s t
  | Num n, Num m => N.eqb n m
  | _, _ => false
  end.

Definition chunk_lt (a b : chunk) : result bool :=
  match a, b with
  | Txt s, Txt t => Ok (String.ltb s t)
  | Num n, Num m => Ok (N.ltb n m)
  | _, _ => Raise TypeError
  end.

(** [a < b] on tuples: the first pair of unequal elements decides, and a
    proper prefix is smaller. *)
Fixpoint tuple_lt (a b : list chunk) : result bool :=
  match a, b with
  | [], [] => Ok false
  | [], _ :: _ => Ok true
  | _ :: _, [] => Ok false
  | x :: a', y :: b' => if chunk_eqb x y then tuple_lt a' b' else chunk_lt x y
  end.

(** The test the sort makes between two keys.  A raise would abort the
    sort; between the keys of two strings there is none
    ([natsort_key_ltb]). *)
Definition key_ltb (a b : list chunk) : bool :=
  match tuple_lt a b with
  | Ok r => r
  | Raise _ => false
  end.

(** [natsorted(l, key=key)] *)
Definition natsorted {A : Type} (key : A -> string) (l : list A) : list A :=
  Py.sorted (fun x => natsort_key (key x)) key_ltb l.

End Natsort.

(** ** Biopython: records and the FASTA writer *)

Module SeqIO.

Record SeqRecord : Type := mkSeqRecord {
  id : string;
  name : string;
  description : string;
  seq : string
}.

(** The record the FASTA parser builds for an entry with title line [title]
    (the header without its [>], right-stripped) and residues [residues]:
    the identifier is the first word of the title, the description the whole
    title. *)
Definition fasta_record (title residues : string) : SeqRecord :=
  let first_word :=
    match Py.split title with
    | w :: _ => w
    | [] => ""
    end in
  {| id := first_word; name := first_word; description := title; seq := residues |}.

Definition clean_char (c : ascii) : ascii :=
  if Ascii.eqb c "010" || Ascii.eqb c "013" then " "%char else c.

(** The writer's [clean]: line breaks become spaces. *)
Fixpoint clean (s : string) : string :=
  match s with
  | EmptyString => EmptyString
  | String c s' => String (clean_char c) (clean s')
  end.

(** The title the writer gives a record. *)
Definition title_of (record : SeqRecord) : result string :=
  let id := clean (id record) in
  let description := clean (description record) in
  match description with
  | EmptyString => Ok id
  | _ =>
      first_word ← Py.index (Py.split description) 0;
      if String.eqb first_word id then Ok description
      else Ok (id +:+ " " +:+ description)
  end.

Definition LF : string := String "010" "".

(** The residues in lines of 60 characters; [room] is what is left of the
    current line. *)
Fixpoint wrap (room : nat) (data : string) : string :=
  match data with
  | EmptyString => if Nat.eqb room 60 then "" else LF
  | String c data' =>
      match room with
      | O => LF +:+ String c (wrap 59 data')
      | S room' => String c (wrap room' data')
      end
  end.

(** [record.format("fasta")] *)
Definition as_fasta (record : SeqRecord) : result string :=
  title ← title_of record;
  Ok (">" +:+ title +:+ LF +:+ wrap 60 (seq record)).

(** [SeqIO.write(records, output_file, "fasta")]: the text written. *)
Fixpoint write (records : list SeqRecord) : result string :=
  match records with
  | [] => Ok ""
  | record :: records' =>
      text ← as_fasta record;
      rest ← write records';
      Ok (text +:+ rest)
  end.

End SeqIO.

Import SeqIO.

(** ** extract_and_rename_sequences.py *)

Module extract_and_rename_sequences.

(** The body of the loop over the list file (lines 27 to 30). *)
Definition read_line (sequences : gmap string (list string)) (line : string)
  : result (gmap string (list string)) :=
  let parts := Py.split line in
  string_id ← Py.index parts 0;
  sequence_id ← Py.index parts 1;
  Ok (Py.setdefault_append sequence_id string_id sequences).

(** The dictionary [sequences] after the list file is read (lines 22 to 30). *)
Definition sequences (list_file : list string) : result (gmap string (list string)) :=
  for_each read_line ∅ list_file.

(** Lines 39 to 41: the copy of [record] for the string [sequence_id]. *)
Definition sequence_record (sequence_id : string) (record : SeqRecord) : SeqRecord :=
  {| id := sequence_id +:+ "|" +:+ id record;
     name := name record;
     description := "";
     seq := seq record |}.

(** The body of the loop over the input records (lines 37 to 42). *)
Definition extract (sequences : gmap string (list string))
    (records : list SeqRecord) (record : SeqRecord) : list SeqRecord :=
  match sequences !! id record with
  | Some string_ids =>
      fold_left (fun records sequence_id =>
                   records ++ [sequence_record sequence_id record])
                string_ids records
  | None => records
  end.

(** The list [records] after the input file is read (lines 33 to 42). *)
Definition records (sequences : gmap string (list string))
    (input : list SeqRecord) : list SeqRecord :=
  fold_left (extract sequences) input [].

(** Line 45. *)
Definition sorted_records (records : list SeqRecord) : list SeqRecord :=
  Natsort.natsorted (fun record => Py.lower (id record)) records.

(** The script: from the records of the input file and the lines of the list
    file to the text of the output file. *)
Definition main (input : list SeqRecord) (list_file : list string) : result string :=
  sequences ← sequences list_file;
  SeqIO.write (sorted_records (records sequences input)).

End extract_and_rename_sequences.

(** ** keep_verified_sequences.py *)

Module keep_verified_sequences.

(** The list [keep_strings] after the keep list is read (lines 29 to 34). *)
Definition keep_strings (file : list string) : list string :=
  fold_left (fun keep_strings line => keep_strings ++ [Py.strip line +:+ "|"])
            file [].

(** Line 45: [any(string in record.id for string in keep_strings)]. *)
Definition any_in (keep_strings : list string) (record : SeqRecord) : bool :=
  existsb (fun string => Py.str_in string (id record)) keep_strings.

(** The list [kept_records] after the input file is read (lines 41 to 46). *)
Definition kept_records (keep_strings : list string) (input : list SeqRecord)
  : list SeqRecord :=
  fold_left (fun kept_records record =>
               if any_in keep_strings record then kept_records ++ [record]
               else kept_records)
            input [].

Definition main (input : list SeqRecord) (file : list string) : result string :=
  SeqIO.write (kept_records (keep_strings file) input).

End keep_verified_sequences.

(** ** merge_fasta_files.py *)

Module merge_fasta_files.

(** Lines 36 to 38: the copy of [record] for the file [file_name]. *)
Definition gene_record (file_name : string) (record : SeqRecord) : SeqRecord :=
  {| id := Py.rsplit1_head "." file_name +:+ "|" +:+ id record;
     name := name record;
     description := "";
     seq := seq record |}.

(** The body of the loop over the directory (lines 27 to 39); an entry of the
    directory is a file name with the records of that file. *)
Definition visit (records : list SeqRecord) (entry : string * list SeqRecord)
  : list SeqRecord :=
  let '(file_name, input) := entry in
  if Py.endswith_any file_name [".fasta"; ".fa"] then
    fold_left (fun records record => records ++ [gene_record file_name record])
              input records
  else records.

(** The list [records] after the directory is read, [listing] being what
    [os.listdir] returned, in its order (lines 21 to 39). *)
Definition records (listing : list (string * list SeqRecord)) : list SeqRecord :=
  fold_left visit listing [].

(** Line 42. *)
Definition sorted_records (records : list SeqRecord) : list SeqRecord :=
  Natsort.natsorted (fun record => Py.lower (id record)) records.

Definition main (listing : list (string * list SeqRecord)) : result string :=
  SeqIO.write (sorted_records (records listing)).

(** [os.listdir] returns the entries of a directory in arbitrary order. *)
Definition listdir {X : Type} (dir : gmap string X) (listing : list (string * X)) : Prop :=
  listing ≡ₚ map_to_list dir.

(** A run of the script on a directory: some listing, then [main]. *)
Definition run (dir : gmap string (list SeqRecord)) (out : result string) : Prop :=
  exists listing, listdir dir listing /\ main listing = out.

End merge_fasta_files.

(** ** generate_protein_table.py *)

Module generate_protein_table.

Inductive cell : Type :=
| CStr (s : string)
| CInt (n : Z).

(** Line 20: the entries of the directory, sorted by lower-cased name. *)
Definition files (listing : list (string * list string)) : list (string * list string) :=
  Py.sorted (fun file => Py.lower (fst file)) String.ltb listing.

(** The body of the inner loop (lines 34 and 35). *)
Definition read_line (protein_info : list (string * list string)) (line : string)
  : result (list (string * list string)) :=
  '(protein, status) ← Py.unpack2 (Py.split (Py.strip line));
  Ok (Py.odict_setdefault_append protein status protein_info).

(** The body of the outer loop (lines 27 to 35). *)
Definition read_file (protein_info : list (string * list string))
    (file : string * list string) : result (list (string * list string)) :=
  for_each read_line protein_info (snd file).

(** The dictionary [protein_info] after all files are read (lines 23 to 35). *)
Definition protein_info (files : list (string * list string))
  : result (list (string * list string)) :=
  for_each read_file [] files.

(** Line 42. *)
Definition header_row (files : list (string * list string)) : list cell :=
  [CStr ""] ++ map (fun file => CStr (fst file)) files.

(** Line 47. *)
Definition row (protein : string) (statuses : list string) : list cell :=
  [CStr protein] ++
  map (fun status => CInt (if String.eqb status "missing" then 0 else 1)) statuses.

(** The rows handed to the TSV writer, in order (lines 38 to 48). *)
Definition main (listing : list (string * list string)) : result (list (list cell)) :=
  let files := files listing in
  protein_info ← protein_info files;
  Ok (header_row files :: map (fun item => row (fst item) (snd item)) protein_info).

End generate_protein_table.

(** * Notions used in the statements *)

(** The pairs of the list file, line by line: the first token with the
    second. *)
Definition mapping_pairs (list_file : list string) : list (string * string) :=
  flat_map (fun line =>
              match Py.split line with
              | label :: target :: _ => [(label, target)]
              | _ => []
              end) list_file.

(** The labels the list file pairs with [target], in the order of the
    lines, each as often as the pair occurs. *)
Definition labels_of (list_file : list string) (target : string) : list string :=
  map fst (List.filter (fun pair => String.eqb (snd pair) target)
                       (mapping_pairs list_file)).

(** The pairs of the status lines, line by line: protein and status. *)
Definition status_pairs (lines : list string) : list (string * string) :=
  flat_map (fun line =>
              match Py.split (Py.strip line) with
              | [protein; status] => [(protein, status)]
              | _ => []
              end) lines.

(** The strings of [l] in the order of their first occurrence. *)
Fixpoint first_seen (l : list string) : list string :=
  match l with
  | [] => []
  | x :: l' => x :: List.filter (fun y => negb (String.eqb y x)) (first_seen l')
  end.

(** The statuses paired with [protein], in the order of the pairs. *)
Definition statuses_of (pairs : list (string * string)) (protein : string)
  : list string :=
  map snd (List.filter (fun pair => String.eqb (fst pair) protein) pairs).

(** [x] is one of the strings of [l]. *)
Definition mem (x : string) (l : list string) : bool := existsb (String.eqb x) l.

(** The order of the elements of a key as a three-way comparison; it puts a
    text below a number, a case that the keys of strings never meet. *)
Definition chunk_compare (a b : Natsort.chunk) : comparison :=
  match a, b with
  | Natsort.Txt s, Natsort.Txt t => String.compare s t
  | Natsort.Num n, Natsort.Num m => N.compare n m
  | Natsort.Txt _, Natsort.Num _ => Lt
  | Natsort.Num _, Natsort.Txt _ => Gt
  end.

(** The order of the keys: element by element, a proper prefix first. *)
Fixpoint key_compare (a b : list Natsort.chunk) : comparison :=
  match a, b with
  | [], [] => Eq
  | [], _ :: _ => Lt
  | _ :: _, [] => Gt
  | x :: a', y :: b' =>
      match chunk_compare x y with
      | Eq => key_compare a' b'
      | c => c
      end
  end.

(** Text and numbers in turn, starting with a number when [num_first]. *)
Fixpoint alternates (num_first : bool) (l : list Natsort.chunk) : bool :=
  match l with
  | [] => true
  | x :: l' => Bool.eqb (Natsort.is_num x) num_first && alternates (negb num_first) l'
  end.

(** The comparison says smaller. *)
Definition is_Lt (c : comparison) : bool :=
  match c with
  | Lt => true
  | _ => false
  end.

(** Kinds of character for the statements. *)
Definition notdigit (c : ascii) : bool := negb (Py.isdigit c).

(** The key elements of the pieces from a position of the string on. *)
Definition key_from (in_num : bool) (cur s : string) : list Natsort.chunk :=
  map Natsort.component
      (List.filter Natsort.nonempty (Natsort.re_split_from in_num cur s)).

(** The key under which both scripts sort a record with identifier [s]. *)
Definition natural_key (s : string) : list Natsort.chunk :=
  Natsort.natsort_key (Py.lower s).

(** [s] does not sort after [t]: the key of [t] is not smaller. *)
Definition natural_le (s t : string) : Prop :=
  Natsort.key_ltb (natural_key t) (natural_key s) = false.

Definition notsep (sep c : ascii) : bool := negb (Ascii.eqb c sep).

Definition notspace (c : ascii) : bool := negb (Py.isspace c).

Definition not_line_break (c : ascii) : bool :=
  negb (Ascii.eqb c "010" || Ascii.eqb c "013").

(** The text of a record without description: header line and residues. *)
Definition plain_entry (record : SeqRecord) : string :=
  ">" +:+ clean (id record) +:+ LF +:+ wrap 60 (seq record).

(** The text of an entry as the parser read it: title line and residues. *)
Definition entry_text (entry : string * string) : string :=
  ">" +:+ fst entry +:+ LF +:+ wrap 60 (snd entry).

(** The number of statuses that a dictionary holds. *)
Definition total_statuses (info : list (string * list string)) : nat :=
  list_sum (map (fun item => length (snd item)) info).

(** The character is the digit zero. *)
Definition is_zero (c : ascii) : bool := Ascii.eqb c "0".

(** The comparison says equal. *)
Definition is_Eq (c : comparison) : bool :=
  match c with
  | Eq => true
  | _ => false
  end.

(** [x] stands in [l] at a place before a place of [y]. *)
Definition comes_before {A : Type} (x y : A) (l : list A) : Prop :=
  exists a b c, l = a ++ x :: b ++ y :: c.

(** * Properties *)

(** ** The models on small inputs *)

Example split_tokens :
  Py.split ("  alpha" +:+ String "009" "seq1 " +:+ LF) = ["alpha"; "seq1"] /\
  Py.split LF = [] /\
  Py.strip ("  a b " +:+ LF) = "a b".
Proof. repeat split; reflexivity. Qed.

Example str_in_delimited :
  Py.str_in "foo|" "foo|seq1" = true /\ Py.str_in "foo|" "foobar|seq2" = false /\
  Py.str_in "|" "x|" = true /\ Py.str_in "" "" = true.
Proof. repeat split; reflexivity. Qed.

Example file_names :
  Py.endswith_any "x.fa" [".fasta"; ".fa"] = true /\
  Py.endswith_any "x.fa.gz" [".fasta"; ".fa"] = false /\
  Py.endswith_any ".fasta" [".fasta"; ".fa"] = true /\
  Py.rsplit1_head "." "a.b.fasta" = "a.b" /\
  Py.rsplit1_head "." "nodot" = "nodot" /\
  Py.rsplit1_head "." ".fa" = "".
Proof. repeat split; reflexivity. Qed.

Example natsort_keys :
  map Natsort.natsort_key ["g2"; "g10"; "1a"; ""; "a01b"; "007"] =
  [[Natsort.Txt "g"; Natsort.Num 2]; [Natsort.Txt "g"; Natsort.Num 10];
   [Natsort.Txt ""; Natsort.Num 1; Natsort.Txt "a"]; [];
   [Natsort.Txt "a"; Natsort.Num 1; Natsort.Txt "b"];
   [Natsort.Txt ""; Natsort.Num 7]] /\
  Natsort.re_split "a1b" = ["a"; "1"; "b"] /\
  Natsort.re_split "12" = [""; "12"; ""] /\
  Py.lower "G2|Az[" = "g2|az[".
Proof. repeat split; reflexivity. Qed.

Example fasta_lines :
  as_fasta (fasta_record "seq1" "") = Ok (">seq1" +:+ LF) /\
  wrap 60 "012345678901234567890123456789012345678901234567890123456789" =
    "012345678901234567890123456789012345678901234567890123456789" +:+ LF /\
  wrap 60 "0123456789012345678901234567890123456789012345678901234567890" =
    "012345678901234567890123456789012345678901234567890123456789" +:+ LF +:+
    "0" +:+ LF /\
  as_fasta {| id := "a"; name := "a"; description := "b c"; seq := "M" |} =
    Ok (">a b c" +:+ LF +:+ "M" +:+ LF).
Proof. repeat split; reflexivity. Qed.

(** ** Strings and loops *)

Section Basics.

Lemma str_app_cons (c : ascii) (s t : string) :
  String c s +:+ t = String c (s +:+ t).
Proof. reflexivity. Qed.

Lemma str_app_nil_l (s : string) : "" +:+ s = s.
Proof. reflexivity. Qed.

Lemma str_app_nil_r (s : string) : s +:+ "" = s.
Proof. induction s as [|c s IH]; [reflexivity|]. by rewrite str_app_cons, IH. Qed.

Lemma str_app_assoc (s t u : string) : (s +:+ t) +:+ u = s +:+ (t +:+ u).
Proof. induction s as [|c s IH]; [reflexivity|]. by rewrite !str_app_cons, IH. Qed.

Lemma startswith_spec (s p : string) :
  Py.startswith s p = true <-> exists b, s = p +:+ b.
Proof.
  revert s. induction p as [|a p IH]; intros s; simpl.
  - split; [intros _; by exists s|done].
  - destruct s as [|b s].
    + split; [done|]. intros [t Ht]. discriminate Ht.
    + destruct (Ascii.eqb_spec a b) as [->|Hne].
      * rewrite IH. split; intros [t Ht]; exists t.
        -- by rewrite Ht.
        -- rewrite str_app_cons in Ht. by injection Ht.
      * split; [done|]. intros [t Ht]. rewrite str_app_cons in Ht.
        injection Ht as Hc _. by destruct Hne.
Qed.

(** [sub in s] holds exactly when [sub] is a contiguous part of [s]. *)
Lemma str_in_spec (sub s : string) :
  Py.str_in sub s = true <-> exists a b, s = a +:+ sub +:+ b.
Proof.
  induction s as [|c s IH]; simpl.
  - rewrite orb_false_r, startswith_spec. split.
    + intros [b Hb]. by exists "", b.
    + intros [a [b Hab]]. destruct a; [by exists b|discriminate Hab].
  - rewrite orb_true_iff, startswith_spec, IH. split.
    + intros [[b Hb]|[a [b Hab]]].
      * by exists "", b.
      * exists (String c a), b. by rewrite Hab.
    + intros [a [b Hab]]. destruct a as [|c' a].
      * left. by exists b.
      * right. rewrite str_app_cons in Hab. injection Hab as _ Hs. by exists a, b.
Qed.

Lemma fold_left_snoc_flat_map {A B : Type} (f : A -> list B) (l : list A)
    (acc : list B) :
  fold_left (fun acc x => acc ++ f x) l acc = acc ++ flat_map f l.
Proof.
  revert acc. induction l as [|x l IH]; intros acc; simpl.
  - by rewrite app_nil_r.
  - by rewrite IH, <- app_assoc.
Qed.

Lemma fold_left_ext_eq {A B : Type} (f g : B -> A -> B) (l : list A) (b : B) :
  (forall b x, f b x = g b x) -> fold_left f l b = fold_left g l b.
Proof.
  intros Hfg. revert b. induction l as [|x l IH]; intros b; simpl; [done|].
  by rewrite Hfg, IH.
Qed.

Lemma flat_map_singleton_filter {A : Type} (p : A -> bool) (l : list A) :
  flat_map (fun x => if p x then [x] else []) l = List.filter p l.
Proof.
  induction l as [|x l IH]; simpl; [done|]. rewrite IH. by destruct (p x).
Qed.

Lemma flat_map_singleton_map {A B : Type} (f : A -> B) (l : list A) :
  flat_map (fun x => [f x]) l = map f l.
Proof. induction l as [|x l IH]; simpl; [done|]. by rewrite IH. Qed.

Lemma for_each_app {S A : Type} (body : S -> A -> result S) (s : S)
    (l1 l2 : list A) :
  for_each body s (l1 ++ l2) = s' ← for_each body s l1; for_each body s' l2.
Proof.
  revert s. induction l1 as [|x l1 IH]; intros s; simpl; [done|].
  destruct (body s x); simpl; [apply IH|done].
Qed.

(** When the body raises [e] on the elements that satisfy [bad], whatever
    the state, and returns on the others, the loop raises [e] exactly when
    some element satisfies [bad]. *)
Lemma for_each_raises {S A : Type} (body : S -> A -> result S) (bad : A -> bool)
    (e : exn) (l : list A) (s : S) :
  (forall s x, bad x = true -> body s x = Raise e) ->
  (forall s x, bad x = false -> exists s', body s x = Ok s') ->
  if existsb bad l then for_each body s l = Raise e
  else exists s', for_each body s l = Ok s'.
Proof.
  intros Hbad Hgood. revert s. induction l as [|x l IH]; intros s; simpl.
  - by exists s.
  - destruct (bad x) eqn:Hx; simpl.
    + by rewrite (Hbad s x Hx).
    + destruct (Hgood s x Hx) as [s' ->]. simpl. apply IH.
Qed.

End Basics.

(** ** White space *)

Section Whitespace.

Lemma split_lstrip (s : string) : Py.split (Py.lstrip s) = Py.split s.
Proof.
  unfold Py.split. induction s as [|c s IH]; simpl; [done|].
  destruct (Py.isspace c) eqn:Hc; simpl; [done|]. by rewrite Hc.
Qed.

Lemma split_from_rstrip (cur s : string) :
  Py.split_from cur (Py.rstrip s) = Py.split_from cur s.
Proof.
  revert cur. induction s as [|c s IH]; intros cur; simpl; [done|].
  destruct (Py.rstrip s) as [|c' r] eqn:Hr.
  - destruct (Py.isspace c) eqn:Hc; simpl.
    + rewrite <- IH. simpl. by rewrite app_nil_r.
    + rewrite Hc. by rewrite <- IH.
  - simpl. destruct (Py.isspace c); by rewrite <- IH.
Qed.

(** Stripping a line first does not change its tokens. *)
Lemma split_strip (s : string) : Py.split (Py.strip s) = Py.split s.
Proof.
  unfold Py.strip. unfold Py.split at 1. rewrite split_from_rstrip.
  apply split_lstrip.
Qed.

Lemma lstrip_all_space (s : string) :
  Py.all_chars Py.isspace s = true -> Py.lstrip s = "".
Proof.
  induction s as [|c s IH]; simpl; [done|].
  destruct (Py.isspace c); simpl; [exact IH|done].
Qed.

(** A line of white space only (the empty line too) strips to nothing. *)
Lemma strip_all_space (s : string) :
  Py.all_chars Py.isspace s = true -> Py.strip s = "".
Proof. intros H. unfold Py.strip. by rewrite (lstrip_all_space s H). Qed.

End Whitespace.

(** ** The sort *)

Section SortedFacts.
Context {A K : Type} (key : A -> K) (ltb : K -> K -> bool).

Let le (x y : A) : Prop := ltb (key y) (key x) = false.

Lemma insert_sorted_perm (x : A) (l : list A) :
  Py.insert_sorted key ltb x l ≡ₚ x :: l.
Proof.
  induction l as [|y l IH]; simpl; [done|].
  destruct (ltb (key y) (key x)); [|done].
  rewrite IH. apply Permutation_swap.
Qed.

(** The sorted list has the elements of the input, each as often. *)
Lemma sorted_perm (l : list A) : Py.sorted key ltb l ≡ₚ l.
Proof.
  induction l as [|x l IH]; simpl; [done|].
  by rewrite insert_sorted_perm, IH.
Qed.

Lemma sorted_In (l : list A) (x : A) : In x (Py.sorted key ltb l) <-> In x l.
Proof.
  split; apply Permutation_in; [apply sorted_perm|symmetry; apply sorted_perm].
Qed.

(** Elements that are never smaller than one another keep their order:
    the sort is stable. *)
Lemma insert_sorted_filter (p : A -> bool) (x : A) (l : list A) :
  (forall y, p x = true -> p y = true -> ltb (key y) (key x) = false) ->
  List.filter p (Py.insert_sorted key ltb x l) = List.filter p (x :: l).
Proof.
  intros Hp. induction l as [|y l IH]; simpl; [done|].
  destruct (ltb (key y) (key x)) eqn:Hyx; [|done].
  simpl. rewrite IH. simpl.
  destruct (p x) eqn:Hx, (p y) eqn:Hy; try done.
  rewrite (Hp y eq_refl Hy) in Hyx. discriminate Hyx.
Qed.

Lemma sorted_stable (p : A -> bool) (l : list A) :
  (forall x y, p x = true -> p y = true -> ltb (key y) (key x) = false) ->
  List.filter p (Py.sorted key ltb l) = List.filter p l.
Proof.
  intros Hp. induction l as [|x l IH]; simpl; [done|].
  rewrite insert_sorted_filter by (intros y; apply Hp).
  simpl. by rewrite IH.
Qed.

Section Order.
Hypothesis lt_le : forall x y : A, ltb (key x) (key y) = true -> le x y.
Hypothesis le_trans : forall x y z : A, le x y -> le y z -> le x z.

Lemma insert_sorted_Forall (P : A -> Prop) (x : A) (l : list A) :
  P x -> Forall P l -> Forall P (Py.insert_sorted key ltb x l).
Proof.
  intros Hx Hl. eapply Permutation_Forall; [symmetry; apply insert_sorted_perm|].
  by constructor.
Qed.

Lemma insert_sorted_StronglySorted (x : A) (l : list A) :
  StronglySorted le l -> StronglySorted le (Py.insert_sorted key ltb x l).
Proof.
  induction 1 as [|y l Hl IH Hy]; simpl.
  - repeat constructor.
  - destruct (ltb (key y) (key x)) eqn:Hyx.
    + constructor; [exact IH|].
      apply insert_sorted_Forall; [by apply lt_le|done].
    + constructor; [by constructor|]. constructor; [exact Hyx|].
      eapply List.Forall_impl; [|exact Hy]. intros z Hz.
      by apply (le_trans x y z).
Qed.

(** The sorted list is in ascending order of the keys. *)
Lemma sorted_StronglySorted (l : list A) :
  StronglySorted le (Py.sorted key ltb l).
Proof.
  induction l as [|x l IH]; simpl; [constructor|].
  by apply insert_sorted_StronglySorted.
Qed.
End Order.

(** Two ascending lists with the same elements are equal when no two
    different elements of them are each below the other. *)
Lemma StronglySorted_perm_eq (l1 l2 : list A) :
  (forall x, le x x) ->
  (forall x y, In x l1 -> In y l1 -> le x y -> le y x -> x = y) ->
  StronglySorted le l1 -> StronglySorted le l2 -> l1 ≡ₚ l2 -> l1 = l2.
Proof.
  intros Hrefl. revert l2.
  induction l1 as [|a l1 IH]; intros l2 Hanti H1 H2 Hp.
  - by apply Permutation_nil in Hp.
  - destruct l2 as [|b l2]; [by apply Permutation_sym, Permutation_nil in Hp|].
    apply StronglySorted_inv in H1 as [H1 Ha].
    apply StronglySorted_inv in H2 as [H2 Hb].
    assert (Hab : a = b).
    { assert (Hbin : In b (a :: l1)).
      { apply (Permutation_in b (Permutation_sym Hp)). by left. }
      assert (Hain : In a (b :: l2)).
      { apply (Permutation_in a Hp). by left. }
      apply Hanti; [by left|done| |].
      - destruct Hbin as [->|Hbin]; [apply Hrefl|].
        by apply (proj1 (List.Forall_forall _ _) Ha).
      - destruct Hain as [->|Hain]; [apply Hrefl|].
        by apply (proj1 (List.Forall_forall _ _) Hb). }
    subst b. f_equal. apply IH; [|done|done|].
    + intros x y Hx Hy. apply Hanti; by right.
    + by apply Permutation_cons_inv in Hp.
Qed.

End SortedFacts.

(** ** Reading the list file and the status files *)

Section Loaders.

Import extract_and_rename_sequences.

Lemma read_line_short (seqs : gmap string (list string)) (line : string) :
  length (Py.split line) < 2 -> read_line seqs line = Raise IndexError.
Proof.
  unfold read_line. destruct (Py.split line) as [|a [|b rest]]; simpl; [done|done|lia].
Qed.

Lemma read_line_long (seqs : gmap string (list string)) (line : string)
    (string_id sequence_id : string) (rest : list string) :
  Py.split line = string_id :: sequence_id :: rest ->
  read_line seqs line = Ok (Py.setdefault_append sequence_id string_id seqs).
Proof. unfold read_line. by intros ->. Qed.

Lemma sequences_outcome (list_file : list string) :
  if existsb (fun line => length (Py.split line) <? 2) list_file
  then sequences list_file = Raise IndexError
  else exists seqs, sequences list_file = Ok seqs.
Proof.
  apply for_each_raises.
  - intros s line H. apply read_line_short. by apply Nat.ltb_lt.
  - intros s line H. apply Nat.ltb_ge in H.
    destruct (Py.split line) as [|a [|b rest]] eqn:Hs; simpl in H; [lia|lia|].
    eexists. by apply read_line_long with (rest := rest).
Qed.

Lemma sequences_loads (list_file : list string) :
  (forall line, In line list_file -> 2 <= length (Py.split line)) ->
  exists seqs, sequences list_file = Ok seqs.
Proof.
  intros Hall. pose proof (sequences_outcome list_file) as H.
  destruct (existsb _ list_file) eqn:He; [|done].
  apply existsb_exists in He as [line [Hin Hlt]]. apply Nat.ltb_lt in Hlt.
  specialize (Hall line Hin). lia.
Qed.

Lemma for_each_nested {S A B : Type} (body : S -> B -> result S) (g : A -> list B)
    (l : list A) (s : S) :
  for_each (fun s x => for_each body s (g x)) s l = for_each body s (flat_map g l).
Proof.
  revert s. induction l as [|x l IH]; intros s; simpl; [done|].
  rewrite for_each_app. destruct (for_each body s (g x)); simpl; [apply IH|done].
Qed.

Lemma status_line_outcome (info : list (string * list string)) (line : string) :
  match Py.split (Py.strip line) with
  | [protein; status] =>
      generate_protein_table.read_line info line =
      Ok (Py.odict_setdefault_append protein status info)
  | _ => generate_protein_table.read_line info line = Raise ValueError
  end.
Proof.
  unfold generate_protein_table.read_line.
  by destruct (Py.split (Py.strip line)) as [|a [|b [|c rest]]].
Qed.

Lemma status_line_raises (info : list (string * list string)) (line : string) :
  length (Py.split (Py.strip line)) <> 2 <->
  generate_protein_table.read_line info line = Raise ValueError.
Proof.
  pose proof (status_line_outcome info line) as H.
  destruct (Py.split (Py.strip line)) as [|a [|b [|c rest]]]; simpl;
    split; intros H'; try done; try lia; congruence.
Qed.

Lemma protein_info_outcome (files : list (string * list string)) :
  if existsb (fun line => negb (length (Py.split (Py.strip line)) =? 2))
             (flat_map snd files)
  then generate_protein_table.protein_info files = Raise ValueError
  else exists info, generate_protein_table.protein_info files = Ok info.
Proof.
  unfold generate_protein_table.protein_info, generate_protein_table.read_file.
  rewrite (for_each_nested generate_protein_table.read_line snd).
  apply for_each_raises.
  - intros s line H. apply status_line_raises.
    apply negb_true_iff, Nat.eqb_neq in H. exact H.
  - intros s line H. apply negb_false_iff, Nat.eqb_eq in H.
    pose proof (status_line_outcome s line) as Hl.
    destruct (Py.split (Py.strip line)) as [|a [|b [|c rest]]]; try done.
    by eexists.
Qed.

Lemma main_table_outcome (listing : list (string * list string)) :
  if existsb (fun line => negb (length (Py.split (Py.strip line)) =? 2))
             (flat_map snd (generate_protein_table.files listing))
  then generate_protein_table.main listing = Raise ValueError
  else exists table, generate_protein_table.main listing = Ok table.
Proof.
  unfold generate_protein_table.main.
  pose proof (protein_info_outcome (generate_protein_table.files listing)) as H.
  destruct (existsb _ _).
  - by rewrite H.
  - destruct H as [info ->]. by eexists.
Qed.

Lemma in_files_lines (listing : list (string * list string)) (line : string) :
  In line (flat_map snd (generate_protein_table.files listing)) <->
  exists file, In file listing /\ In line (file.2).
Proof.
  rewrite in_flat_map. unfold generate_protein_table.files.
  split; intros [file [Hf Hl]]; exists file; split; try done.
  - by apply sorted_In in Hf.
  - by apply sorted_In.
Qed.

End Loaders.

(** C1 (as the code has it): loading the list file aborts, with
    [IndexError], exactly when some line has fewer than two tokens, and
    returns the dictionary otherwise.  A line with more than two tokens is
    no error: its first two tokens are the string and the sequence header,
    the others are not looked at. *)
Theorem list_file_line_arity :
  (forall list_file : list string,
     extract_and_rename_sequences.sequences list_file = Raise IndexError <->
     exists line, In line list_file /\ length (Py.split line) < 2) /\
  (forall list_file : list string,
     (exists seqs, extract_and_rename_sequences.sequences list_file = Ok seqs) <->
     forall line, In line list_file -> 2 <= length (Py.split line)) /\
  (forall (seqs : gmap string (list string)) (line string_id sequence_id : string)
          (rest : list string),
     Py.split line = string_id :: sequence_id :: rest ->
     extract_and_rename_sequences.read_line seqs line =
     Ok (Py.setdefault_append sequence_id string_id seqs)).
Proof.
  split; [|split].
  - intros list_file. pose proof (sequences_outcome list_file) as H.
    destruct (existsb _ list_file) eqn:He.
    + split; [intros _|done]. apply existsb_exists in He as [line [Hin Hlt]].
      exists line. split; [done|]. by apply Nat.ltb_lt.
    + destruct H as [seqs Hs]. split; [congruence|].
      intros [line [Hin Hlt]].
      assert (existsb (fun line => length (Py.split line) <? 2) list_file = true);
        [|congruence].
      apply existsb_exists. exists line. split; [done|]. by apply Nat.ltb_lt.
  - intros list_file. pose proof (sequences_outcome list_file) as H.
    destruct (existsb _ list_file) eqn:He.
    + split.
      * intros [seqs Hs]. congruence.
      * intros Hall. apply existsb_exists in He as [line [Hin Hlt]].
        apply Nat.ltb_lt in Hlt. specialize (Hall line Hin). lia.
    + split; [intros _|done]. intros line Hin.
      destruct (Nat.ltb (length (Py.split line)) 2) eqn:Hlt.
      * assert (existsb (fun line => length (Py.split line) <? 2) list_file = true);
          [|congruence].
        apply existsb_exists. by exists line.
      * by apply Nat.ltb_ge in Hlt.
  - intros seqs line string_id sequence_id rest. apply read_line_long.
Qed.

Lemma list_file_line_arity_witness :
  extract_and_rename_sequences.read_line ∅ ("alpha seq1 junk" +:+ LF) =
  Ok (Py.setdefault_append "seq1" "alpha" ∅).
Proof.
  apply (proj2 (proj2 list_file_line_arity) ∅ ("alpha seq1 junk" +:+ LF)
               "alpha" "seq1" ["junk"]).
  reflexivity.
Defined.

(** C1 (as stated) fails on a line with three tokens: the list file is
    loaded, and the third token is dropped. *)
Lemma list_file_three_tokens_accepted :
  length (Py.split ("alpha seq1 junk" +:+ LF)) = 3 /\
  extract_and_rename_sequences.sequences ["alpha seq1 junk" +:+ LF] =
  Ok {[ "seq1" := ["alpha"] ]}.
Proof. split; reflexivity. Qed.

(** C8 (as the code has it): a status line aborts the run, with
    [ValueError], exactly when it does not have two tokens; the run aborts
    exactly when some line of some file is such a line, and returns the table
    otherwise.  The list file of Rename/Extract is split into the same
    tokens; a line with fewer than two aborts there too, with [IndexError],
    but a line with two tokens or more is taken there, so a line with more
    than two aborts the aggregator and loads in Rename/Extract. *)
Theorem status_line_arity :
  (forall (info : list (string * list string)) (line : string),
     length (Py.split (Py.strip line)) <> 2 <->
     generate_protein_table.read_line info line = Raise ValueError) /\
  (forall listing : list (string * list string),
     generate_protein_table.main listing = Raise ValueError <->
     exists file line, In file listing /\ In line (snd file) /\
                       length (Py.split (Py.strip line)) <> 2) /\
  (forall listing : list (string * list string),
     (exists table, generate_protein_table.main listing = Ok table) <->
     forall file line, In file listing -> In line (snd file) ->
                       length (Py.split (Py.strip line)) = 2) /\
  (forall (seqs : gmap string (list string)) (line : string),
     Py.split (Py.strip line) = Py.split line /\
     (length (Py.split (Py.strip line)) < 2 ->
      extract_and_rename_sequences.read_line seqs line = Raise IndexError) /\
     (forall (label target : string) (rest : list string),
        Py.split (Py.strip line) = label :: target :: rest ->
        extract_and_rename_sequences.read_line seqs line =
        Ok (Py.setdefault_append target label seqs)) /\
     (2 < length (Py.split (Py.strip line)) ->
      (forall info, generate_protein_table.read_line info line = Raise ValueError) /\
      exists seqs', extract_and_rename_sequences.read_line seqs line = Ok seqs')) /\
  (forall (list_file : list string) (listing : list (string * list string)),
     (forall line, In line list_file -> 2 <= length (Py.split (Py.strip line))) ->
     (exists file line, In file listing /\ In line (snd file) /\
                        2 < length (Py.split (Py.strip line))) ->
     (exists seqs, extract_and_rename_sequences.sequences list_file = Ok seqs) /\
     generate_protein_table.main listing = Raise ValueError).
Proof.
  assert (Hmain : forall listing : list (string * list string),
     generate_protein_table.main listing = Raise ValueError <->
     exists file line, In file listing /\ In line (snd file) /\
                       length (Py.split (Py.strip line)) <> 2).
  { intros listing. pose proof (main_table_outcome listing) as H.
    destruct (existsb _ _) eqn:He.
    + split; [intros _|done]. apply existsb_exists in He as [line [Hin Hbad]].
      apply in_files_lines in Hin as [file [Hf Hl]]. exists file, line.
      repeat split; try done. by apply negb_true_iff, Nat.eqb_neq in Hbad.
    + destruct H as [table Ht]. split; [congruence|].
      intros [file [line [Hf [Hl Hbad]]]].
      assert (existsb (fun line => negb (length (Py.split (Py.strip line)) =? 2))
                (flat_map snd (generate_protein_table.files listing)) = true);
        [|congruence].
      apply existsb_exists. exists line. split.
      * apply in_files_lines. by exists file.
      * by apply negb_true_iff, Nat.eqb_neq. }
  split; [|split; [|split; [|split]]].
  - apply status_line_raises.
  - exact Hmain.
  - intros listing. pose proof (main_table_outcome listing) as H.
    destruct (existsb _ _) eqn:He.
    + split.
      * intros [table Ht]. congruence.
      * intros Hall. apply existsb_exists in He as [line [Hin Hbad]].
        apply in_files_lines in Hin as [file [Hf Hl]].
        apply negb_true_iff, Nat.eqb_neq in Hbad.
        by specialize (Hall file line Hf Hl).
    + split; [intros _|done]. intros file line Hf Hl.
      destruct (Nat.eqb (length (Py.split (Py.strip line))) 2) eqn:Heq.
      * by apply Nat.eqb_eq in Heq.
      * assert (existsb (fun line => negb (length (Py.split (Py.strip line)) =? 2))
                  (flat_map snd (generate_protein_table.files listing)) = true);
          [|congruence].
        apply existsb_exists. exists line. split.
        -- apply in_files_lines. by exists file.
        -- by rewrite Heq.
  - intros seqs line. split; [apply split_strip|]. rewrite split_strip.
    split; [apply read_line_short|]. split.
    + intros label target rest. apply read_line_long.
    + intros Hlen. split.
      * intros info. apply status_line_raises. rewrite split_strip. lia.
      * destruct (Py.split line) as [|a [|b rest]] eqn:Hs; simpl in Hlen; try lia.
        eexists. by apply (read_line_long seqs line a b rest).
  - intros list_file listing Hall [file [line [Hf [Hl Hlen]]]]. split.
    + apply sequences_loads. intros l Hin. rewrite <- split_strip. by apply Hall.
    + apply Hmain. exists file, line. repeat split; try done. lia.
Qed.

Lemma status_line_arity_witness :
  (Py.split (Py.strip ("p1" +:+ LF)) = Py.split ("p1" +:+ LF) /\
   extract_and_rename_sequences.read_line ∅ ("p1" +:+ LF) = Raise IndexError) /\
  ((forall info,
      generate_protein_table.read_line info ("p1 present extra" +:+ LF) =
      Raise ValueError) /\
   exists seqs',
     extract_and_rename_sequences.read_line ∅ ("p1 present extra" +:+ LF) =
     Ok seqs') /\
  ((exists seqs,
      extract_and_rename_sequences.sequences
        ["alpha seq1" +:+ LF; "p1 present extra" +:+ LF] = Ok seqs) /\
   generate_protein_table.main
     [("speciesA", ["p1 present" +:+ LF]);
      ("speciesB", ["p1 present extra" +:+ LF])] = Raise ValueError).
Proof.
  split; [split|split].
  - apply (proj1 (proj1 (proj2 (proj2 (proj2 status_line_arity))) ∅ ("p1" +:+ LF))).
  - apply (proj1 (proj2 (proj1 (proj2 (proj2 (proj2 status_line_arity))) ∅
                          ("p1" +:+ LF)))).
    vm_compute. lia.
  - apply (proj2 (proj2 (proj2 (proj1 (proj2 (proj2 (proj2 status_line_arity))) ∅
                                  ("p1 present extra" +:+ LF))))).
    vm_compute. lia.
  - apply (proj2 (proj2 (proj2 (proj2 status_line_arity)))
             ["alpha seq1" +:+ LF; "p1 present extra" +:+ LF]
             [("speciesA", ["p1 present" +:+ LF]);
              ("speciesB", ["p1 present extra" +:+ LF])]).
    + intros line Hin. simpl in Hin. destruct Hin as [<-|[<-|[]]]; vm_compute; lia.
    + exists ("speciesB", ["p1 present extra" +:+ LF]), ("p1 present extra" +:+ LF).
      split; [simpl; right; left; reflexivity|].
      split; [simpl; left; reflexivity|]. vm_compute. lia.
Defined.

(** C8 (as stated) fails on a line with three tokens: it aborts the
    aggregator, and the list file of Rename/Extract takes it. *)
Lemma status_line_three_tokens_differ :
  length (Py.split (Py.strip ("p1 present extra" +:+ LF))) = 3 /\
  generate_protein_table.main [("speciesA", ["p1 present extra" +:+ LF])] =
  Raise ValueError /\
  extract_and_rename_sequences.sequences ["p1 present extra" +:+ LF] =
  Ok {[ "present" := ["p1"] ]}.
Proof. repeat split; reflexivity. Qed.

(** ** Keep/Verify *)

Section KeepVerify.

Import keep_verified_sequences.

Lemma keep_strings_map (file : list string) :
  keep_strings file = map (fun line => Py.strip line +:+ "|") file.
Proof.
  unfold keep_strings.
  rewrite (fold_left_snoc_flat_map (fun line => [Py.strip line +:+ "|"])).
  simpl. induction file as [|line file IH]; simpl; [done|]. by rewrite IH.
Qed.

Lemma kept_records_filter (keep : list string) (input : list SeqRecord) :
  kept_records keep input = List.filter (any_in keep) input.
Proof.
  unfold kept_records.
  rewrite (fold_left_ext_eq _
             (fun acc record => acc ++ if any_in keep record then [record] else [])).
  - rewrite fold_left_snoc_flat_map. simpl. apply flat_map_singleton_filter.
  - intros acc record. destruct (any_in keep record); [done|].
    by rewrite app_nil_r.
Qed.

Lemma any_in_spec (file : list string) (record : SeqRecord) :
  any_in (keep_strings file) record = true <->
  exists line a b, In line file /\
                   id record = a +:+ (Py.strip line +:+ "|") +:+ b.
Proof.
  unfold any_in. rewrite keep_strings_map, existsb_exists. split.
  - intros [string [Hin Hsub]]. apply in_map_iff in Hin as [line [<- Hin]].
    apply str_in_spec in Hsub as [a [b Hab]]. by exists line, a, b.
  - intros [line [a [b [Hin Hab]]]]. exists (Py.strip line +:+ "|"). split.
    + apply in_map_iff. by exists line.
    + apply str_in_spec. by exists a, b.
Qed.

End KeepVerify.

(** C2: Keep/Verify keeps a record exactly when some line of the keep
    list, stripped and followed by a bar, is a contiguous part of the record's
    identifier; what it keeps are the input records themselves, in the order
    of the input; and the keep list [foo] keeps [foo|seq1] but neither
    [foobar|seq2] nor [bar|seq3]. *)
Theorem keep_verify_substring_filter :
  (forall (file : list string) (input : list SeqRecord) (record : SeqRecord),
     In record (keep_verified_sequences.kept_records
                  (keep_verified_sequences.keep_strings file) input) <->
     In record input /\
     exists line a b, In line file /\
                      id record = a +:+ (Py.strip line +:+ "|") +:+ b) /\
  (forall (file : list string) (input : list SeqRecord),
     keep_verified_sequences.kept_records
       (keep_verified_sequences.keep_strings file) input =
     List.filter (keep_verified_sequences.any_in
                    (keep_verified_sequences.keep_strings file)) input) /\
  (forall file : list string,
     keep_verified_sequences.keep_strings file =
     map (fun line => Py.strip line +:+ "|") file) /\
  (forall (file : list string) (input : list SeqRecord),
     keep_verified_sequences.main input file =
     SeqIO.write (List.filter (keep_verified_sequences.any_in
                                 (keep_verified_sequences.keep_strings file)) input)) /\
  keep_verified_sequences.kept_records
    (keep_verified_sequences.keep_strings ["foo" +:+ LF])
    [fasta_record "foo|seq1" "MKV"; fasta_record "foobar|seq2" "AAA";
     fasta_record "bar|seq3" "CC"] =
  [fasta_record "foo|seq1" "MKV"].
Proof.
  repeat apply conj.
  - intros file input record. rewrite kept_records_filter, filter_In.
    by rewrite any_in_spec.
  - intros file input. apply kept_records_filter.
  - apply keep_strings_map.
  - intros file input. unfold keep_verified_sequences.main.
    by rewrite kept_records_filter.
  - reflexivity.
Qed.

(** C10: a line of the keep list that is empty or white space only becomes
    the string of one bar, and then every record whose identifier has a bar
    in it is kept. *)
Theorem keep_verify_blank_line (file : list string) (input : list SeqRecord)
    (line : string) :
  In line file ->
  Py.all_chars Py.isspace line = true ->
  In "|" (keep_verified_sequences.keep_strings file) /\
  forall record : SeqRecord,
    In record input ->
    (exists a b, id record = a +:+ "|" +:+ b) ->
    In record (keep_verified_sequences.kept_records
                 (keep_verified_sequences.keep_strings file) input).
Proof.
  intros Hin Hblank.
  assert (Hbar : In "|" (keep_verified_sequences.keep_strings file)).
  { rewrite keep_strings_map. apply in_map_iff. exists line. split; [|done].
    by rewrite (strip_all_space line Hblank). }
  split; [done|]. intros record Hrec Hid.
  rewrite kept_records_filter. apply filter_In. split; [done|].
  unfold keep_verified_sequences.any_in. apply existsb_exists. exists "|".
  split; [done|]. by apply str_in_spec.
Qed.

Lemma keep_verify_blank_line_witness :
  In "|" (keep_verified_sequences.keep_strings ["foo" +:+ LF; " " +:+ LF]) /\
  forall record : SeqRecord,
    In record [fasta_record "bar|seq3 kinase" "CC"; fasta_record "seq4" "MKV"] ->
    (exists a b, id record = a +:+ "|" +:+ b) ->
    In record (keep_verified_sequences.kept_records
                 (keep_verified_sequences.keep_strings ["foo" +:+ LF; " " +:+ LF])
                 [fasta_record "bar|seq3 kinase" "CC"; fasta_record "seq4" "MKV"]).
Proof.
  apply (keep_verify_blank_line ["foo" +:+ LF; " " +:+ LF]
           [fasta_record "bar|seq3 kinase" "CC"; fasta_record "seq4" "MKV"]
           (" " +:+ LF)).
  - simpl. right. left. reflexivity.
  - reflexivity.
Defined.

(** ** Rename/Extract *)

Section RenameExtract.

Import extract_and_rename_sequences.

Lemma records_flat_map (seqs : gmap string (list string)) (input : list SeqRecord) :
  records seqs input =
  flat_map (fun record => map (fun sequence_id => sequence_record sequence_id record)
                              (default [] (seqs !! id record))) input.
Proof.
  unfold records.
  rewrite (fold_left_ext_eq _
    (fun acc record => acc ++ map (fun sequence_id => sequence_record sequence_id record)
                                  (default [] (seqs !! id record)))).
  - by rewrite fold_left_snoc_flat_map.
  - intros acc record. unfold extract. destruct (seqs !! id record) as [ids|]; simpl.
    + rewrite (fold_left_snoc_flat_map (fun sequence_id => [sequence_record sequence_id record])).
      by rewrite flat_map_singleton_map.
    + by rewrite app_nil_r.
Qed.

Lemma setdefault_append_lookup (seqs : gmap string (list string))
    (k v k' : string) :
  default [] (Py.setdefault_append k v seqs !! k') =
  default [] (seqs !! k') ++ (if String.eqb k k' then [v] else []).
Proof.
  unfold Py.setdefault_append. destruct (String.eqb_spec k k') as [->|Hne].
  - by rewrite lookup_insert_eq.
  - rewrite lookup_insert_ne by done. by rewrite app_nil_r.
Qed.

Lemma labels_of_cons (line : string) (list_file : list string) (k : string) :
  labels_of (line :: list_file) k =
  match Py.split line with
  | label :: target :: _ => if String.eqb target k then [label] else []
  | _ => []
  end ++ labels_of list_file k.
Proof.
  unfold labels_of, mapping_pairs. simpl.
  destruct (Py.split line) as [|a [|b rest]]; simpl; try done.
  by destruct (String.eqb b k).
Qed.

Lemma read_line_cases (acc : gmap string (list string)) (line : string) :
  match Py.split line with
  | label :: target :: _ =>
      read_line acc line = Ok (Py.setdefault_append target label acc)
  | _ => read_line acc line = Raise IndexError
  end.
Proof. unfold read_line. by destruct (Py.split line) as [|a [|b rest]]. Qed.

Lemma for_each_read_line_lookup (list_file : list string)
    (acc seqs : gmap string (list string)) (k : string) :
  for_each read_line acc list_file = Ok seqs ->
  default [] (seqs !! k) = default [] (acc !! k) ++ labels_of list_file k.
Proof.
  revert acc. induction list_file as [|line list_file IH]; intros acc; simpl.
  - intros [= ->]. by rewrite app_nil_r.
  - rewrite labels_of_cons. pose proof (read_line_cases acc line) as Hl.
    destruct (Py.split line) as [|a [|b rest]]; rewrite Hl; simpl; try done.
    intros H. rewrite (IH _ H), setdefault_append_lookup. by rewrite <- app_assoc.
Qed.

Lemma for_each_read_line_nonempty (list_file : list string)
    (acc seqs : gmap string (list string)) :
  (forall k, acc !! k <> Some []) ->
  for_each read_line acc list_file = Ok seqs ->
  forall k, seqs !! k <> Some [].
Proof.
  revert acc. induction list_file as [|line list_file IH]; intros acc Hacc; simpl.
  - by intros [= <-].
  - pose proof (read_line_cases acc line) as Hl.
    destruct (Py.split line) as [|a [|b rest]]; rewrite Hl; simpl; try done.
    apply IH. intros k. unfold Py.setdefault_append.
    destruct (String.eqb_spec b k) as [->|Hne].
    + rewrite lookup_insert_eq. destruct (default [] (acc !! k)); discriminate.
    + by rewrite lookup_insert_ne.
Qed.

Lemma sequences_lookup (list_file : list string) (seqs : gmap string (list string))
    (k : string) :
  sequences list_file = Ok seqs ->
  default [] (seqs !! k) = labels_of list_file k /\
  (seqs !! k = None <-> labels_of list_file k = []).
Proof.
  intros H. pose proof (for_each_read_line_lookup list_file ∅ seqs k H) as Hl.
  rewrite lookup_empty in Hl. simpl in Hl. split; [done|].
  pose proof (for_each_read_line_nonempty list_file ∅ seqs) as Hne.
  rewrite <- Hl. destruct (seqs !! k) as [v|] eqn:Hk; simpl; [|done].
  split; [done|]. intros ->. exfalso. apply (Hne (fun k => ltac:(by rewrite lookup_empty)) H k Hk).
Qed.

End RenameExtract.

(** C3: when the list file loads, the extraction loop gives, for every
    input record in turn, one copy per label that the list file pairs with
    the record's identifier (the identifier compared as a whole), in the
    order of the lines and as often as the pair occurs; the copy has the
    label, a bar and the old identifier as its identifier and an empty
    description.  A record whose identifier is no key of the dictionary has
    no label and so no copy.  The output holds these copies, sorted. *)
Theorem rename_extract_fan_out (list_file : list string)
    (seqs : gmap string (list string)) (input : list SeqRecord) :
  extract_and_rename_sequences.sequences list_file = Ok seqs ->
  extract_and_rename_sequences.records seqs input =
    flat_map (fun record =>
                map (fun label => {| id := label +:+ "|" +:+ id record;
                                     name := name record;
                                     description := "";
                                     seq := seq record |})
                    (labels_of list_file (id record))) input /\
  (forall record : SeqRecord,
     seqs !! id record = None <-> labels_of list_file (id record) = []) /\
  extract_and_rename_sequences.sorted_records
    (extract_and_rename_sequences.records seqs input) ≡ₚ
  extract_and_rename_sequences.records seqs input.
Proof.
  intros H. split; [|split].
  - rewrite records_flat_map. apply flat_map_ext. intros record.
    by rewrite (proj1 (sequences_lookup list_file seqs (id record) H)).
  - intros record. apply (sequences_lookup list_file seqs (id record) H).
  - apply sorted_perm.
Qed.

Lemma rename_extract_fan_out_witness :
  extract_and_rename_sequences.records {[ "seq1" := ["alpha"; "beta"; "alpha"] ]}
    [fasta_record "seq1 kinase" "MKV"; fasta_record "seq2" "AAA"] =
    flat_map (fun record =>
                map (fun label => {| id := label +:+ "|" +:+ id record;
                                     name := name record;
                                     description := "";
                                     seq := seq record |})
                    (labels_of ["alpha seq1" +:+ LF; "beta seq1" +:+ LF; "alpha seq1"]
                               (id record)))
             [fasta_record "seq1 kinase" "MKV"; fasta_record "seq2" "AAA"] /\
  (forall record : SeqRecord,
     ({[ "seq1" := ["alpha"; "beta"; "alpha"] ]} : gmap string (list string))
       !! id record = None <->
     labels_of ["alpha seq1" +:+ LF; "beta seq1" +:+ LF; "alpha seq1"]
               (id record) = []) /\
  extract_and_rename_sequences.sorted_records
    (extract_and_rename_sequences.records {[ "seq1" := ["alpha"; "beta"; "alpha"] ]}
       [fasta_record "seq1 kinase" "MKV"; fasta_record "seq2" "AAA"]) ≡ₚ
  extract_and_rename_sequences.records {[ "seq1" := ["alpha"; "beta"; "alpha"] ]}
    [fasta_record "seq1 kinase" "MKV"; fasta_record "seq2" "AAA"].
Proof.
  apply (rename_extract_fan_out
           ["alpha seq1" +:+ LF; "beta seq1" +:+ LF; "alpha seq1"]
           {[ "seq1" := ["alpha"; "beta"; "alpha"] ]}
           [fasta_record "seq1 kinase" "MKV"; fasta_record "seq2" "AAA"]).
  reflexivity.
Defined.

Example rename_extract_duplicates :
  extract_and_rename_sequences.main
    [fasta_record "seq1 kinase" "MKV"; fasta_record "seq2" "AAA"]
    ["beta seq1" +:+ LF; "alpha seq1" +:+ LF; "beta seq1"] =
  Ok (">alpha|seq1" +:+ LF +:+ "MKV" +:+ LF +:+
      ">beta|seq1" +:+ LF +:+ "MKV" +:+ LF +:+
      ">beta|seq1" +:+ LF +:+ "MKV" +:+ LF).
Proof. reflexivity. Qed.

(** ** The presence table *)

Section PresenceTable.

Import generate_protein_table.

Lemma mem_In (x : string) (l : list string) : mem x l = true <-> In x l.
Proof.
  unfold mem. rewrite existsb_exists. split.
  - intros [y [Hy Heq]]. apply String.eqb_eq in Heq. by subst.
  - intros H. exists x. split; [done|apply String.eqb_refl].
Qed.

Lemma first_seen_In (x : string) (l : list string) :
  In x (first_seen l) <-> In x l.
Proof.
  induction l as [|y l IH]; simpl; [done|].
  rewrite filter_In, IH. destruct (String.eqb_spec x y) as [->|Hne]; simpl.
  - split; [intros _|]; by left.
  - split.
    + intros [->|[H _]]; [done|by right].
    + intros [->|H]; [done|]. by right.
Qed.

Lemma first_seen_NoDup (l : list string) : List.NoDup (first_seen l).
Proof.
  induction l as [|y l IH]; simpl; constructor.
  - rewrite filter_In. intros [_ H]. by rewrite String.eqb_refl in H.
  - by apply List.NoDup_filter.
Qed.

Lemma first_seen_snoc (l : list string) (x : string) :
  first_seen (l ++ [x]) = if mem x l then first_seen l else first_seen l ++ [x].
Proof.
  induction l as [|y l IH]; simpl; [done|]. rewrite IH.
  destruct (String.eqb_spec x y) as [->|Hne]; simpl.
  - destruct (mem y l); [done|]. rewrite List.filter_app. simpl.
    rewrite String.eqb_refl. simpl. by rewrite app_nil_r.
  - destruct (mem x l); [done|]. rewrite List.filter_app. simpl.
    by rewrite (proj2 (String.eqb_neq x y) Hne).
Qed.

Lemma statuses_of_snoc (pairs : list (string * string)) (p s q : string) :
  statuses_of (pairs ++ [(p, s)]) q =
  statuses_of pairs q ++ (if String.eqb p q then [s] else []).
Proof.
  unfold statuses_of. rewrite List.filter_app, map_app. simpl.
  by destruct (String.eqb p q).
Qed.

Lemma statuses_of_not_mem (pairs : list (string * string)) (q : string) :
  mem q (map fst pairs) = false -> statuses_of pairs q = [].
Proof.
  unfold statuses_of. induction pairs as [|[p s] pairs IH]; simpl; [done|].
  rewrite String.eqb_sym. destruct (String.eqb p q); simpl; [done|]. exact IH.
Qed.

Lemma odict_setdefault_append_map (g : string -> list string) (p s : string)
    (keys : list string) :
  List.NoDup keys ->
  Py.odict_setdefault_append p s (map (fun q => (q, g q)) keys) =
  if mem p keys
  then map (fun q => (q, g q ++ (if String.eqb p q then [s] else []))) keys
  else map (fun q => (q, g q)) keys ++ [(p, [s])].
Proof.
  induction 1 as [|k keys Hk Hnd IH]; simpl; [done|].
  rewrite (String.eqb_sym p k). destruct (String.eqb_spec k p) as [->|Hne]; simpl.
  - f_equal. apply map_ext_in. intros q Hq.
    destruct (String.eqb_spec p q) as [->|_]; [done|]. by rewrite app_nil_r.
  - rewrite IH, app_nil_r. by destruct (mem p keys).
Qed.

(** What the dictionary holds after the pairs are entered one by one. *)
Lemma collect_pairs (pairs : list (string * string)) :
  fold_left (fun info pair => Py.odict_setdefault_append (fst pair) (snd pair) info)
            pairs [] =
  map (fun protein => (protein, statuses_of pairs protein))
      (first_seen (map fst pairs)).
Proof.
  induction pairs as [|[p s] pairs IH] using rev_ind; [done|].
  rewrite fold_left_app. simpl. rewrite IH.
  rewrite odict_setdefault_append_map by apply first_seen_NoDup.
  rewrite map_app. simpl. rewrite first_seen_snoc.
  destruct (mem p (map fst pairs)) eqn:Hp.
  - assert (Hm : mem p (first_seen (map fst pairs)) = true).
    { apply mem_In, first_seen_In, mem_In, Hp. }
    rewrite Hm. apply map_ext. intros q. by rewrite statuses_of_snoc.
  - assert (Hm : mem p (first_seen (map fst pairs)) = false).
    { destruct (mem p (first_seen (map fst pairs))) eqn:Hm; [|done].
      apply (proj1 (mem_In _ _)), (proj1 (first_seen_In _ _)) in Hm.
      apply (proj2 (mem_In _ _)) in Hm. congruence. }
    rewrite Hm, map_app. simpl. rewrite statuses_of_snoc, String.eqb_refl.
    rewrite (statuses_of_not_mem pairs p Hp). simpl. f_equal.
    apply map_ext_in. intros q Hq. rewrite statuses_of_snoc.
    destruct (String.eqb_spec p q) as [->|_]; [|by rewrite app_nil_r].
    apply (proj1 (first_seen_In _ _)) in Hq. apply (proj2 (mem_In _ _)) in Hq.
    congruence.
Qed.

Lemma for_each_read_line_pairs (lines : list string)
    (acc info : list (string * list string)) :
  for_each read_line acc lines = Ok info ->
  info = fold_left (fun info pair =>
                      Py.odict_setdefault_append (fst pair) (snd pair) info)
                   (status_pairs lines) acc.
Proof.
  revert acc. induction lines as [|line lines IH]; intros acc; simpl.
  - by intros [= ->].
  - unfold status_pairs. simpl. fold (status_pairs lines). rewrite fold_left_app.
    pose proof (status_line_outcome acc line) as Hl.
    destruct (Py.split (Py.strip line)) as [|a [|b [|c rest]]];
      rewrite Hl; simpl; try done.
    apply IH.
Qed.

Lemma protein_info_rows (files : list (string * list string))
    (info : list (string * list string)) :
  protein_info files = Ok info ->
  info = map (fun protein =>
                (protein, statuses_of (status_pairs (flat_map snd files)) protein))
             (first_seen (map fst (status_pairs (flat_map snd files)))).
Proof.
  unfold protein_info, read_file. rewrite (for_each_nested read_line snd).
  intros H. apply for_each_read_line_pairs in H. by rewrite H, collect_pairs.
Qed.

Lemma string_ltb_leb (a b : string) :
  String.ltb b a = false <-> String.leb a b = true.
Proof.
  unfold String.ltb, String.leb. rewrite (String.compare_antisym a b).
  by destruct (String.compare b a).
Qed.

Lemma string_ltb_irrefl (a : string) : String.ltb a a = false.
Proof. apply string_ltb_leb. by destruct (String.leb_total a a). Qed.

Lemma string_ltb_asym (a b : string) :
  String.ltb a b = true -> String.ltb b a = false.
Proof.
  unfold String.ltb. rewrite (String.compare_antisym a b).
  by destruct (String.compare b a).
Qed.

Lemma string_leb_trans (a b c : string) :
  String.leb a b = true -> String.leb b c = true -> String.leb a c = true.
Proof.
  intros H1 H2. apply Is_true_true. apply Is_true_true in H1, H2.
  change (String.le a c). by trans b.
Qed.

Lemma files_sorted (listing : list (string * list string)) :
  StronglySorted (fun f g => String.ltb (Py.lower (fst g)) (Py.lower (fst f)) = false)
                 (files listing).
Proof.
  apply (sorted_StronglySorted (fun file : string * list string => Py.lower (fst file))
                               String.ltb).
  - intros x y. apply string_ltb_asym.
  - intros x y z H1 H2. apply string_ltb_leb.
    apply string_ltb_leb in H1, H2. by apply (string_leb_trans _ _ _ H1 H2).
Qed.

End PresenceTable.

(** C6: the files are taken in ascending order of their lower-cased
    names (files whose names differ in case only, in the order of the
    listing), and the header row is an empty cell followed by their names in
    that order.  When every line has two tokens, the table has after the
    header one row per protein, in the order in which the proteins are first
    seen over the lines of the files in that order; a row is the protein
    followed by one number per line that names it, in the order of the
    lines: 0 when the status is the word missing, 1 otherwise.  So a protein
    that some file does not name has a shorter row: with speciesA naming p1
    as present and p2 as missing, and speciesB naming p1 as missing, the row
    of p1 is 1, 0 and the row of p2 is 0. *)
Theorem presence_table_rows :
  (forall listing : list (string * list string),
     generate_protein_table.files listing ≡ₚ listing /\
     StronglySorted
       (fun f g => String.leb (Py.lower (fst f)) (Py.lower (fst g)) = true)
       (generate_protein_table.files listing) /\
     forall key : string,
       List.filter (fun f => String.eqb (Py.lower (fst f)) key)
                   (generate_protein_table.files listing) =
       List.filter (fun f => String.eqb (Py.lower (fst f)) key) listing) /\
  (forall (listing : list (string * list string))
          (table : list (list generate_protein_table.cell)),
     generate_protein_table.main listing = Ok table ->
     let files := generate_protein_table.files listing in
     let pairs := status_pairs (flat_map snd files) in
     table =
       (generate_protein_table.CStr "" ::
          map (fun file => generate_protein_table.CStr (fst file)) files) ::
       map (fun protein =>
              generate_protein_table.CStr protein ::
              map (fun status =>
                     generate_protein_table.CInt
                       (if String.eqb status "missing" then 0 else 1))
                  (statuses_of pairs protein))
           (first_seen (map fst pairs))) /\
  generate_protein_table.main
    [("speciesB", ["p1 missing" +:+ LF]);
     ("speciesA", ["p1 present" +:+ LF; "p2 missing" +:+ LF])] =
  Ok [[generate_protein_table.CStr ""; generate_protein_table.CStr "speciesA";
       generate_protein_table.CStr "speciesB"];
      [generate_protein_table.CStr "p1"; generate_protein_table.CInt 1;
       generate_protein_table.CInt 0];
      [generate_protein_table.CStr "p2"; generate_protein_table.CInt 0]].
Proof.
  split; [|split].
  - intros listing. split; [apply sorted_perm|]. split.
    + pose proof (files_sorted listing) as H.
      induction H as [|f l Hl IH Hf]; constructor; [done|].
      eapply List.Forall_impl; [|exact Hf]. intros g Hg. by apply string_ltb_leb.
    + intros key. apply sorted_stable. intros x y Hx Hy.
      apply String.eqb_eq in Hx, Hy. rewrite Hx, Hy. apply string_ltb_irrefl.
  - intros listing table. unfold generate_protein_table.main.
    destruct (generate_protein_table.protein_info
                (generate_protein_table.files listing)) as [info|e] eqn:Hi;
      simpl; [|done].
    intros [= <-]. apply protein_info_rows in Hi. rewrite Hi.
    unfold generate_protein_table.header_row. simpl. f_equal.
    by rewrite map_map.
  - reflexivity.
Qed.

Lemma presence_table_rows_witness :
  let listing := [("speciesB", ["p1 missing" +:+ LF]);
                  ("speciesA", ["p1 present" +:+ LF; "p2 missing" +:+ LF])] in
  let table :=
    [[generate_protein_table.CStr ""; generate_protein_table.CStr "speciesA";
      generate_protein_table.CStr "speciesB"];
     [generate_protein_table.CStr "p1"; generate_protein_table.CInt 1;
      generate_protein_table.CInt 0];
     [generate_protein_table.CStr "p2"; generate_protein_table.CInt 0]] in
  let files := generate_protein_table.files listing in
  let pairs := status_pairs (flat_map snd files) in
  table =
    (generate_protein_table.CStr "" ::
       map (fun file => generate_protein_table.CStr (fst file)) files) ::
    map (fun protein =>
           generate_protein_table.CStr protein ::
           map (fun status =>
                  generate_protein_table.CInt
                    (if String.eqb status "missing" then 0 else 1))
               (statuses_of pairs protein))
        (first_seen (map fst pairs)).
Proof.
  apply (proj1 (proj2 presence_table_rows)
           [("speciesB", ["p1 missing" +:+ LF]);
            ("speciesA", ["p1 present" +:+ LF; "p2 missing" +:+ LF])]).
  reflexivity.
Defined.

(** ** The order of the natsort keys *)

Section KeyOrder.

Import Natsort.

Lemma string_compare_refl (s : string) : String.compare s s = Eq.
Proof.
  induction s as [|c s IH]; simpl; [done|].
  unfold Ascii.compare. by rewrite N.compare_refl.
Qed.

Lemma string_compare_eq (s t : string) : String.compare s t = Eq <-> s = t.
Proof.
  split; [apply String.compare_eq_iff|]. intros ->. apply string_compare_refl.
Qed.

Lemma string_compare_lt_trans (s t u : string) :
  String.compare s t = Lt -> String.compare t u = Lt -> String.compare s u = Lt.
Proof.
  revert t u. induction s as [|a s IH]; intros [|b t] [|c u]; simpl; try done.
  destruct (Ascii.compare a b) eqn:Hab; try done.
  - apply Ascii.compare_eq_iff in Hab as ->.
    destruct (Ascii.compare b c); try done. apply IH.
  - destruct (Ascii.compare b c) eqn:Hbc; try done.
    + apply Ascii.compare_eq_iff in Hbc as <-. by rewrite Hab.
    + intros _ _. replace (Ascii.compare a c) with Lt; [done|].
      symmetry. unfold Ascii.compare in *. apply N.compare_lt_iff.
      apply (proj1 (N.compare_lt_iff _ _)) in Hab, Hbc. lia.
Qed.

Lemma chunk_compare_eq (a b : chunk) : chunk_compare a b = Eq <-> a = b.
Proof.
  destruct a as [s|n], b as [t|m]; simpl; try (split; discriminate).
  - rewrite string_compare_eq. split; [by intros ->|by intros [= ->]].
  - rewrite N.compare_eq_iff. split; [by intros ->|by intros [= ->]].
Qed.

Lemma chunk_compare_antisym (a b : chunk) :
  chunk_compare b a = CompOpp (chunk_compare a b).
Proof.
  destruct a as [s|n], b as [t|m]; simpl; try done.
  - apply String.compare_antisym.
  - apply N.compare_antisym.
Qed.

Lemma chunk_compare_lt_trans (a b c : chunk) :
  chunk_compare a b = Lt -> chunk_compare b c = Lt -> chunk_compare a c = Lt.
Proof.
  destruct a as [s|n], b as [t|m], c as [u|k]; simpl; try done.
  - apply string_compare_lt_trans.
  - rewrite !N.compare_lt_iff. lia.
Qed.

Lemma key_compare_eq (a b : list chunk) : key_compare a b = Eq <-> a = b.
Proof.
  revert b. induction a as [|x a IH]; intros [|y b]; simpl; try done.
  destruct (chunk_compare x y) eqn:Hxy.
  - apply chunk_compare_eq in Hxy as ->. rewrite IH.
    split; [by intros ->|by intros [= ->]].
  - split; [done|]. intros [= -> _].
    by rewrite (proj2 (chunk_compare_eq y y) eq_refl) in Hxy.
  - split; [done|]. intros [= -> _].
    by rewrite (proj2 (chunk_compare_eq y y) eq_refl) in Hxy.
Qed.

Lemma key_compare_antisym (a b : list chunk) :
  key_compare b a = CompOpp (key_compare a b).
Proof.
  revert b. induction a as [|x a IH]; intros [|y b]; simpl; try done.
  rewrite (chunk_compare_antisym x y).
  destruct (chunk_compare x y); simpl; [apply IH|done|done].
Qed.

Lemma key_compare_lt_trans (a b c : list chunk) :
  key_compare a b = Lt -> key_compare b c = Lt -> key_compare a c = Lt.
Proof.
  revert b c. induction a as [|x a IH]; intros [|y b] [|z c]; simpl; try done.
  destruct (chunk_compare x y) eqn:Hxy; try done.
  - apply chunk_compare_eq in Hxy as ->.
    destruct (chunk_compare y z); try done. apply IH.
  - destruct (chunk_compare y z) eqn:Hyz; try done.
    + apply chunk_compare_eq in Hyz as <-. by rewrite Hxy.
    + by rewrite (chunk_compare_lt_trans x y z Hxy Hyz).
Qed.

(** Not-above is transitive. *)
Lemma key_compare_le_trans (a b c : list chunk) :
  key_compare a b <> Gt -> key_compare b c <> Gt -> key_compare a c <> Gt.
Proof.
  intros Hab Hbc.
  destruct (key_compare a b) eqn:H1; [| |done].
  - apply key_compare_eq in H1 as ->. done.
  - destruct (key_compare b c) eqn:H2; [| |done].
    + apply key_compare_eq in H2 as <-. by rewrite H1.
    + by rewrite (key_compare_lt_trans a b c H1 H2).
Qed.

(** On keys of the same shape Python's [<] raises nothing and is the
    three-way order. *)
Lemma tuple_lt_compare (num_first : bool) (a b : list chunk) :
  alternates num_first a = true -> alternates num_first b = true ->
  tuple_lt a b = Ok (is_Lt (key_compare a b)).
Proof.
  revert num_first b. induction a as [|x a IH]; intros num_first [|y b]; simpl;
    try done.
  rewrite !andb_true_iff. intros [Hx Ha] [Hy Hb].
  apply Bool.eqb_prop in Hx, Hy.
  destruct x as [s|n], y as [t|m]; simpl in *; try congruence.
  - destruct (String.eqb_spec s t) as [->|Hne].
    + rewrite string_compare_refl. by apply (IH (negb num_first)).
    + unfold String.ltb. destruct (String.compare s t) eqn:Hc; try done.
      by apply String.compare_eq_iff in Hc.
  - destruct (N.eqb_spec n m) as [->|Hne].
    + rewrite N.compare_refl. by apply (IH (negb num_first)).
    + unfold N.ltb. destruct (N.compare n m) eqn:Hc; try done.
      by apply N.compare_eq_iff in Hc.
Qed.

End KeyOrder.

(** ** The shape of a natsort key *)

Section KeyShape.

Import Natsort.

Lemma all_chars_snoc (p : ascii -> bool) (cur : string) (c : ascii) :
  Py.all_chars p (cur +:+ String c "") = Py.all_chars p cur && p c.
Proof.
  induction cur as [|d cur IH].
  - simpl. by rewrite andb_true_r.
  - rewrite str_app_cons. simpl. by rewrite IH, andb_assoc.
Qed.

Lemma nonempty_snoc (cur : string) (c : ascii) :
  nonempty (cur +:+ String c "") = true.
Proof. by destruct cur. Qed.

Lemma component_digits (cur : string) :
  nonempty cur = true -> Py.all_chars Py.isdigit cur = true ->
  component cur = Num (int cur).
Proof. unfold component. by intros -> ->. Qed.

Lemma component_text (cur : string) :
  Py.all_chars notdigit cur = true -> component cur = Txt cur.
Proof.
  unfold component. destruct cur as [|c cur]; simpl; [done|].
  unfold notdigit. destruct (Py.isdigit c); simpl; done.
Qed.

Lemma key_from_alternates (s : string) :
  (forall cur, nonempty cur = true -> Py.all_chars Py.isdigit cur = true ->
               alternates true (key_from true cur s) = true) /\
  (forall cur, Py.all_chars notdigit cur = true ->
               if nonempty cur then alternates false (key_from false cur s) = true
               else alternates true (key_from false cur s) = true \/
                    alternates false (key_from false cur s) = true).
Proof.
  induction s as [|c s [IHnum IHtxt]]; split; intros cur.
  - intros Hne Hd. unfold key_from. simpl. rewrite Hne. simpl.
    by rewrite (component_digits cur Hne Hd).
  - intros Ht. unfold key_from. simpl. destruct (nonempty cur) eqn:Hne; simpl.
    + by rewrite (component_text cur Ht).
    + by left.
  - intros Hne Hd. unfold key_from. simpl. destruct (Py.isdigit c) eqn:Hc.
    + apply IHnum; [apply nonempty_snoc|]. by rewrite all_chars_snoc, Hd, Hc.
    + simpl. rewrite Hne. simpl. rewrite (component_digits cur Hne Hd). simpl.
      specialize (IHtxt (String c "")). simpl in IHtxt. apply IHtxt.
      unfold notdigit. by rewrite Hc.
  - intros Ht. unfold key_from. simpl. destruct (Py.isdigit c) eqn:Hc.
    + simpl. specialize (IHnum (String c "") eq_refl). simpl in IHnum.
      rewrite Hc in IHnum. specialize (IHnum eq_refl).
      destruct (nonempty cur) eqn:Hne; simpl.
      * by rewrite (component_text cur Ht).
      * by left.
    + specialize (IHtxt (cur +:+ String c "")). rewrite nonempty_snoc in IHtxt.
      assert (Hall : Py.all_chars notdigit (cur +:+ String c "") = true).
      { rewrite all_chars_snoc, Ht. unfold notdigit. by rewrite Hc. }
      specialize (IHtxt Hall). destruct (nonempty cur); [done|by right].
Qed.

Lemma sep_between_alternates (num_first : bool) (prev : chunk) (l : list chunk) :
  is_num prev = negb num_first -> alternates num_first l = true ->
  sep_between prev l = l.
Proof.
  revert num_first prev. induction l as [|x l IH]; intros num_first prev Hp; simpl;
    [done|].
  rewrite andb_true_iff. intros [Hx Hl]. apply Bool.eqb_prop in Hx.
  rewrite Hp, Hx, andb_negb_l. simpl. f_equal.
  apply (IH (negb num_first)); [|done]. by rewrite Hx, negb_involutive.
Qed.

Lemma sep_inserter_alternates (l : list chunk) :
  alternates true l = true \/ alternates false l = true ->
  alternates false (sep_inserter l) = true.
Proof.
  destruct l as [|x l]; [done|]. simpl. rewrite !andb_true_iff.
  intros [[Hx Hl]|[Hx Hl]]; apply Bool.eqb_prop in Hx; rewrite Hx; simpl.
  - rewrite (sep_between_alternates false x l); [|done|done].
    by rewrite Hx, Hl.
  - rewrite (sep_between_alternates true x l); [|done|done].
    by rewrite Hx, Hl.
Qed.

(** Every key starts with a text and goes on with numbers and texts in
    turn. *)
Lemma natsort_key_alternates (s : string) :
  alternates false (natsort_key s) = true.
Proof.
  unfold natsort_key, re_split. apply sep_inserter_alternates.
  destruct (key_from_alternates s) as [_ H]. apply (H "" eq_refl).
Qed.

(** So comparing two keys never raises. *)
Lemma natsort_key_ltb (s t : string) :
  tuple_lt (natsort_key s) (natsort_key t) =
    Ok (is_Lt (key_compare (natsort_key s) (natsort_key t))) /\
  key_ltb (natsort_key s) (natsort_key t) =
    is_Lt (key_compare (natsort_key s) (natsort_key t)).
Proof.
  assert (H := tuple_lt_compare false (natsort_key s) (natsort_key t)
                 (natsort_key_alternates s) (natsort_key_alternates t)).
  split; [done|]. unfold key_ltb. by rewrite H.
Qed.

Lemma natsort_lt_irrefl (s : string) :
  key_ltb (natsort_key s) (natsort_key s) = false.
Proof.
  rewrite (proj2 (natsort_key_ltb s s)).
  by rewrite (proj2 (key_compare_eq _ _) eq_refl).
Qed.

Lemma natsort_lt_asym (s t : string) :
  key_ltb (natsort_key s) (natsort_key t) = true ->
  key_ltb (natsort_key t) (natsort_key s) = false.
Proof.
  rewrite !(proj2 (natsort_key_ltb _ _)).
  rewrite (key_compare_antisym (natsort_key s) (natsort_key t)).
  by destruct (key_compare (natsort_key s) (natsort_key t)).
Qed.

Lemma natsort_le_iff (s t : string) :
  key_ltb (natsort_key t) (natsort_key s) = false <->
  key_compare (natsort_key s) (natsort_key t) <> Gt.
Proof.
  rewrite (proj2 (natsort_key_ltb _ _)).
  rewrite (key_compare_antisym (natsort_key s) (natsort_key t)).
  by destruct (key_compare (natsort_key s) (natsort_key t)).
Qed.

Lemma natsort_le_trans (s t u : string) :
  key_ltb (natsort_key t) (natsort_key s) = false ->
  key_ltb (natsort_key u) (natsort_key t) = false ->
  key_ltb (natsort_key u) (natsort_key s) = false.
Proof. rewrite !natsort_le_iff. apply key_compare_le_trans. Qed.

Lemma natsort_le_antisym (s t : string) :
  key_ltb (natsort_key t) (natsort_key s) = false ->
  key_ltb (natsort_key s) (natsort_key t) = false ->
  natsort_key s = natsort_key t.
Proof.
  rewrite !natsort_le_iff. intros H1 H2. apply key_compare_eq.
  rewrite (key_compare_antisym (natsort_key s) (natsort_key t)) in H2.
  by destruct (key_compare (natsort_key s) (natsort_key t)).
Qed.


End KeyShape.

(** ** natsorted *)

Section NatsortedFacts.

Import Natsort.

Context {A : Type} (key : A -> string).

Lemma natsorted_perm (l : list A) : natsorted key l ≡ₚ l.
Proof. apply sorted_perm. Qed.

Lemma natsorted_sorted (l : list A) :
  StronglySorted
    (fun x y => key_ltb (natsort_key (key y)) (natsort_key (key x)) = false)
    (natsorted key l).
Proof.
  apply (sorted_StronglySorted (fun x => natsort_key (key x)) key_ltb).
  - intros x y. apply natsort_lt_asym.
  - intros x y z. apply natsort_le_trans.
Qed.

Lemma natsorted_stable (p : A -> bool) (l : list A) :
  (forall x y, p x = true -> p y = true ->
               natsort_key (key x) = natsort_key (key y)) ->
  List.filter p (natsorted key l) = List.filter p l.
Proof.
  intros Hp. apply sorted_stable. intros x y Hx Hy.
  rewrite (Hp y x Hy Hx). apply natsort_lt_irrefl.
Qed.

Lemma NoDup_map_inj_In {B : Type} (f : A -> B) (l : list A) (x y : A) :
  List.NoDup (map f l) -> In x l -> In y l -> f x = f y -> x = y.
Proof.
  induction l as [|a l IH]; simpl; [done|].
  intros Hnd. apply List.NoDup_cons_iff in Hnd as [Ha Hnd].
  intros [->|Hx] [->|Hy] Hf; try done.
  - exfalso. apply Ha. rewrite Hf. by apply in_map.
  - exfalso. apply Ha. rewrite <- Hf. by apply in_map.
  - by apply IH.
Qed.

(** When no two elements have the same key, the order of the input does not
    matter. *)
Lemma natsorted_unique (l1 l2 : list A) :
  l1 ≡ₚ l2 ->
  List.NoDup (map (fun x => natsort_key (key x)) l1) ->
  natsorted key l1 = natsorted key l2.
Proof.
  intros Hp Hnd.
  apply (StronglySorted_perm_eq (fun x => natsort_key (key x)) key_ltb).
  - intros x. apply natsort_lt_irrefl.
  - intros x y Hx Hy Hxy Hyx.
    apply (NoDup_map_inj_In (fun x => natsort_key (key x)) l1); [done| | |].
    + exact (proj1 (sorted_In (fun x => natsort_key (key x)) key_ltb l1 x) Hx).
    + exact (proj1 (sorted_In (fun x => natsort_key (key x)) key_ltb l1 y) Hy).
    + by apply natsort_le_antisym.
  - apply natsorted_sorted.
  - apply natsorted_sorted.
  - by rewrite !natsorted_perm.
Qed.

Lemma filter_split (p : A -> bool) (l u v : list A) (x : A) :
  List.filter p l = u ++ x :: v ->
  exists l1 l2, l = l1 ++ x :: l2 /\ List.filter p l1 = u /\ List.filter p l2 = v.
Proof.
  revert u. induction l as [|z l IH]; intros u; simpl.
  - by destruct u.
  - destruct (p z) eqn:Hz.
    + destruct u as [|z' u]; simpl.
      * intros [= -> <-]. by exists [], l.
      * intros [= -> H]. destruct (IH u H) as [l1 [l2 [-> [H1 H2]]]].
        exists (z' :: l1), l2. simpl. by rewrite Hz, H1.
    + intros H. destruct (IH u H) as [l1 [l2 [-> [H1 H2]]]].
      exists (z :: l1), l2. simpl. by rewrite Hz.
Qed.

(** Of two elements with the same key, the one that comes first in the
    input comes first in the sorted list. *)
Lemma natsorted_keeps_order (l : list A) (x y : A) :
  natsort_key (key x) = natsort_key (key y) ->
  comes_before x y l -> comes_before x y (natsorted key l).
Proof.
  intros Hxy [a [b [c Hl]]].
  set (p := fun z => is_Eq (key_compare (natsort_key (key z)) (natsort_key (key x)))).
  assert (Hp : forall z, p z = true <-> natsort_key (key z) = natsort_key (key x)).
  { intros z. unfold p. rewrite <- key_compare_eq.
    by destruct (key_compare (natsort_key (key z)) (natsort_key (key x))). }
  assert (Hst : List.filter p (natsorted key l) = List.filter p l).
  { apply natsorted_stable. intros u v Hu Hv.
    apply Hp in Hu, Hv. by rewrite Hu, Hv. }
  assert (Hpx : p x = true) by by apply Hp.
  assert (Hpy : p y = true) by (apply Hp; by rewrite Hxy).
  rewrite Hl in Hst at 2.
  rewrite List.filter_app in Hst. simpl in Hst. rewrite Hpx in Hst.
  rewrite List.filter_app in Hst. simpl in Hst. rewrite Hpy in Hst.
  apply filter_split in Hst as [l1 [l2 [H1 [_ H2]]]].
  apply filter_split in H2 as [l3 [l4 [H2 _]]].
  exists l1, l3, l4. by rewrite H1, H2.
Qed.

End NatsortedFacts.

Section DigitRuns.

Import Natsort.

Lemma re_split_from_text (t cur s : string) :
  Py.all_chars notdigit t = true ->
  re_split_from false cur (t +:+ s) = re_split_from false (cur +:+ t) s.
Proof.
  revert cur. induction t as [|c t IH]; intros cur; simpl.
  - by rewrite str_app_nil_r.
  - rewrite andb_true_iff. unfold notdigit at 1. intros [Hc Ht].
    rewrite ?str_app_cons. simpl. apply negb_true_iff in Hc. rewrite Hc.
    rewrite (IH _ Ht). by rewrite str_app_assoc.
Qed.

Lemma re_split_from_digits (d cur s : string) :
  Py.all_chars Py.isdigit d = true ->
  re_split_from true cur (d +:+ s) = re_split_from true (cur +:+ d) s.
Proof.
  revert cur. induction d as [|c d IH]; intros cur; simpl.
  - by rewrite str_app_nil_r.
  - rewrite andb_true_iff. intros [Hc Hd].
    rewrite ?str_app_cons. simpl. rewrite Hc.
    rewrite (IH _ Hd). by rewrite str_app_assoc.
Qed.

(** The key of a text followed by one run of digits. *)
Lemma natsort_key_text_digits (t d : string) :
  nonempty t = true -> Py.all_chars notdigit t = true ->
  nonempty d = true -> Py.all_chars Py.isdigit d = true ->
  natsort_key (t +:+ d) = [Txt t; Num (int d)].
Proof.
  intros Hnt Ht Hnd Hd. unfold natsort_key, re_split.
  rewrite <- (str_app_nil_r d) at 1.
  rewrite (re_split_from_text t "" _ Ht). simpl.
  destruct d as [|c d]; [done|]. simpl in Hd. apply andb_true_iff in Hd as [Hc Hd'].
  rewrite ?str_app_cons. simpl. rewrite Hc.
  rewrite (re_split_from_digits d (String c "") "" Hd'). simpl.
  rewrite !str_app_nil_l, !str_app_cons, !str_app_nil_l.
  rewrite Hnt. simpl. rewrite (component_text t Ht).
  rewrite (component_digits (String c d)); [done|done|]. simpl. by rewrite Hc, Hd'.
Qed.

Lemma isdigit_lower_char (c : ascii) : Py.isdigit (Py.lower_char c) = Py.isdigit c.
Proof. destruct c as [[] [] [] [] [] [] [] []]; reflexivity. Qed.

Lemma lower_app (s t : string) : Py.lower (s +:+ t) = Py.lower s +:+ Py.lower t.
Proof.
  induction s as [|c s IH]; [done|]. rewrite str_app_cons. simpl.
  by rewrite IH.
Qed.

Lemma lower_digits (d : string) :
  Py.all_chars Py.isdigit d = true -> Py.lower d = d.
Proof.
  induction d as [|c d IH]; simpl; [done|]. rewrite andb_true_iff.
  intros [Hc Hd]. rewrite (IH Hd). f_equal.
  destruct c as [[] [] [] [] [] [] [] []]; try reflexivity; discriminate Hc.
Qed.

Lemma lower_notdigit (t : string) :
  Py.all_chars notdigit (Py.lower t) = Py.all_chars notdigit t.
Proof.
  induction t as [|c t IH]; simpl; [done|]. unfold notdigit at 1 3.
  by rewrite isdigit_lower_char, IH.
Qed.

Lemma lower_nonempty (t : string) : nonempty (Py.lower t) = nonempty t.
Proof. by destruct t. Qed.

Lemma natural_key_text_digits (t d : string) :
  nonempty t = true -> Py.all_chars notdigit t = true ->
  nonempty d = true -> Py.all_chars Py.isdigit d = true ->
  natural_key (t +:+ d) = [Txt (Py.lower t); Num (int d)].
Proof.
  intros Hnt Ht Hnd Hd. unfold natural_key.
  rewrite lower_app, (lower_digits d Hd).
  apply natsort_key_text_digits; try done.
  - by rewrite lower_nonempty.
  - by rewrite lower_notdigit.
Qed.

End DigitRuns.



(** ** Merge *)

Section Merge.

Import merge_fasta_files.

Lemma endswith_spec (s suffix : string) :
  Py.endswith s suffix = true <-> exists a, s = a +:+ suffix.
Proof.
  induction s as [|c s IH]; cbn [Py.endswith].
  - rewrite orb_false_r. split.
    + intros H. apply String.eqb_eq in H as <-. by exists "".
    + intros [a Ha]. destruct a; [|discriminate Ha].
      rewrite str_app_nil_l in Ha. subst. apply String.eqb_refl.
  - rewrite orb_true_iff, IH. split.
    + intros [H|[a Ha]].
      * apply String.eqb_eq in H as <-. by exists "".
      * exists (String c a). by rewrite Ha.
    + intros [a Ha]. destruct a as [|c' a].
      * left. rewrite str_app_nil_l in Ha. subst. apply String.eqb_refl.
      * right. rewrite str_app_cons in Ha. injection Ha as _ Ha. by exists a.
Qed.

Lemma before_last_none (sep : ascii) (s : string) :
  Py.all_chars (notsep sep) s = true -> Py.before_last sep s = None.
Proof.
  induction s as [|c s IH]; simpl; [done|]. rewrite andb_true_iff.
  intros [Hc Hs]. rewrite (IH Hs). unfold notsep in Hc.
  apply negb_true_iff in Hc. by rewrite Hc.
Qed.

Lemma before_last_app (sep : ascii) (stem ext : string) :
  Py.all_chars (notsep sep) ext = true ->
  Py.before_last sep (stem +:+ String sep ext) = Some stem.
Proof.
  intros Hext. induction stem as [|c stem IH].
  - rewrite str_app_nil_l. simpl. rewrite (before_last_none sep ext Hext).
    by rewrite Ascii.eqb_refl.
  - rewrite str_app_cons. simpl. by rewrite IH.
Qed.

(** The name without its last suffix: what stands before the last dot. *)
Lemma rsplit1_head_app (stem ext : string) :
  Py.all_chars (notsep ".") ext = true ->
  Py.rsplit1_head "." (stem +:+ "." +:+ ext) = stem.
Proof.
  intros Hext. unfold Py.rsplit1_head.
  change ("." +:+ ext) with (String "." ext). by rewrite before_last_app.
Qed.

Lemma visit_flat_map (records : list SeqRecord) (entry : string * list SeqRecord) :
  visit records entry =
  records ++ (if Py.endswith_any (fst entry) [".fasta"; ".fa"]
              then map (gene_record (fst entry)) (snd entry) else []).
Proof.
  destruct entry as [file_name input]. unfold visit. cbn [fst snd].
  destruct (Py.endswith_any file_name [".fasta"; ".fa"]).
  - rewrite (fold_left_snoc_flat_map (fun record => [gene_record file_name record])).
    by rewrite flat_map_singleton_map.
  - by rewrite app_nil_r.
Qed.

Lemma records_flat_map_all (listing : list (string * list SeqRecord)) :
  records listing =
  flat_map (fun entry => if Py.endswith_any (fst entry) [".fasta"; ".fa"]
                         then map (gene_record (fst entry)) (snd entry) else [])
           listing.
Proof.
  unfold records. rewrite (fold_left_ext_eq _ _ listing [] visit_flat_map).
  by rewrite fold_left_snoc_flat_map.
Qed.

Lemma flat_map_filter {A B : Type} (p : A -> bool) (f : A -> list B) (l : list A) :
  flat_map (fun x => if p x then f x else []) l = flat_map f (List.filter p l).
Proof.
  induction l as [|x l IH]; simpl; [done|].
  destruct (p x); simpl; by rewrite IH.
Qed.

Lemma records_perm (l1 l2 : list (string * list SeqRecord)) :
  l1 ≡ₚ l2 -> records l1 ≡ₚ records l2.
Proof. intros H. rewrite !records_flat_map_all. by apply Permutation_flat_map. Qed.

(** Two listings of the same entries give the same sorted records when no
    two records have the same key. *)
Lemma sorted_records_listing (l1 l2 : list (string * list SeqRecord)) :
  l1 ≡ₚ l2 ->
  List.NoDup (map (fun record => natural_key (id record)) (records l1)) ->
  sorted_records (records l1) = sorted_records (records l2).
Proof.
  intros Hp Hnd. apply natsorted_unique; [by apply records_perm|exact Hnd].
Qed.

End Merge.

(** C4 (as the code has it): the merge takes the records of the entries
    whose name ends in [.fasta] or [.fa], in the order of the listing, and
    nothing of the others; the copy of a record has the file name up to its
    last dot, a bar and the old identifier as its identifier, and an empty
    description; what is written are these copies in ascending order of the
    key of the lower-cased identifier, and copies with the same key in the
    order in which the listing brought them (the sort is stable).  Two
    listings of the same entries give the same records up to their order,
    and the same output when no two copies have the same key. *)
Theorem merge_selects_renames_sorts :
  (forall listing : list (string * list SeqRecord),
     merge_fasta_files.records listing =
     flat_map (fun entry =>
                 map (fun record =>
                        {| id := Py.rsplit1_head "." (fst entry) +:+ "|" +:+ id record;
                           name := name record;
                           description := "";
                           seq := seq record |})
                     (snd entry))
              (List.filter (fun entry => Py.endswith_any (fst entry) [".fasta"; ".fa"])
                           listing)) /\
  (forall file_name : string,
     Py.endswith_any file_name [".fasta"; ".fa"] = true <->
     exists stem, file_name = stem +:+ ".fasta" \/ file_name = stem +:+ ".fa") /\
  (forall stem ext : string,
     Py.all_chars (notsep ".") ext = true ->
     Py.rsplit1_head "." (stem +:+ "." +:+ ext) = stem) /\
  (forall listing : list (string * list SeqRecord),
     merge_fasta_files.main listing =
       SeqIO.write (merge_fasta_files.sorted_records
                      (merge_fasta_files.records listing)) /\
     merge_fasta_files.sorted_records (merge_fasta_files.records listing) ≡ₚ
       merge_fasta_files.records listing /\
     StronglySorted (fun x y => natural_le (id x) (id y))
       (merge_fasta_files.sorted_records (merge_fasta_files.records listing)) /\
     forall p : SeqRecord -> bool,
       (forall x y, p x = true -> p y = true ->
                    natural_key (id x) = natural_key (id y)) ->
       List.filter p (merge_fasta_files.sorted_records
                        (merge_fasta_files.records listing)) =
       List.filter p (merge_fasta_files.records listing)) /\
  (forall (listing : list (string * list SeqRecord)) (x y : SeqRecord),
     natural_key (id x) = natural_key (id y) ->
     comes_before x y (merge_fasta_files.records listing) ->
     comes_before x y (merge_fasta_files.sorted_records
                         (merge_fasta_files.records listing))) /\
  (forall l1 l2 : list (string * list SeqRecord),
     l1 ≡ₚ l2 ->
     merge_fasta_files.sorted_records (merge_fasta_files.records l1) ≡ₚ
       merge_fasta_files.sorted_records (merge_fasta_files.records l2) /\
     (List.NoDup (map (fun record => natural_key (id record))
                      (merge_fasta_files.records l1)) ->
      merge_fasta_files.main l1 = merge_fasta_files.main l2)).
Proof.
  repeat apply conj.
  - intros listing. rewrite records_flat_map_all.
    apply (flat_map_filter
             (fun entry => Py.endswith_any (fst entry) [".fasta"; ".fa"])
             (fun entry => map (merge_fasta_files.gene_record (fst entry)) (snd entry))).
  - intros file_name. unfold Py.endswith_any. simpl.
    rewrite orb_false_r, orb_true_iff, !endswith_spec. split.
    + intros [[a Ha]|[a Ha]]; exists a; [by left|by right].
    + intros [a [Ha|Ha]]; [left|right]; by exists a.
  - apply rsplit1_head_app.
  - intros listing. repeat apply conj.
    + reflexivity.
    + apply natsorted_perm.
    + apply (natsorted_sorted (fun record => Py.lower (id record))).
    + intros p Hp.
      apply (natsorted_stable (fun record => Py.lower (id record))). exact Hp.
  - intros listing x y Hxy.
    apply (natsorted_keeps_order (fun record => Py.lower (id record))). exact Hxy.
  - intros l1 l2 Hp. split.
    + unfold merge_fasta_files.sorted_records. rewrite !natsorted_perm.
      by apply records_perm.
    + intros Hnd. unfold merge_fasta_files.main.
      by rewrite (sorted_records_listing l1 l2 Hp Hnd).
Qed.

Lemma merge_selects_renames_sorts_witness :
  merge_fasta_files.main
    [("A.fasta", [fasta_record "x" "MKV"]); ("notes.txt", [fasta_record "n" "C"]);
     ("b.fa", [fasta_record "y kinase" "AAA"])] =
  merge_fasta_files.main
    [("b.fa", [fasta_record "y kinase" "AAA"]); ("A.fasta", [fasta_record "x" "MKV"]);
     ("notes.txt", [fasta_record "n" "C"])] /\
  comes_before
    (merge_fasta_files.gene_record "x.fa" (fasta_record "s" "CCC"))
    (merge_fasta_files.gene_record "x.fasta" (fasta_record "s" "AAA"))
    (merge_fasta_files.sorted_records
       (merge_fasta_files.records
          [("x.fa", [fasta_record "s" "CCC"]); ("x.fasta", [fasta_record "s" "AAA"])])).
Proof.
  split.
  - apply (proj2 (proj2 (proj2 (proj2 (proj2 (proj2 merge_selects_renames_sorts))))
             [("A.fasta", [fasta_record "x" "MKV"]); ("notes.txt", [fasta_record "n" "C"]);
              ("b.fa", [fasta_record "y kinase" "AAA"])]
             [("b.fa", [fasta_record "y kinase" "AAA"]); ("A.fasta", [fasta_record "x" "MKV"]);
              ("notes.txt", [fasta_record "n" "C"])]
             ltac:(eapply perm_trans; [apply perm_skip, perm_swap|apply perm_swap]))).
    vm_compute. repeat constructor; simpl; intuition discriminate.
  - apply (proj1 (proj2 (proj2 (proj2 (proj2 merge_selects_renames_sorts))))
             [("x.fa", [fasta_record "s" "CCC"]); ("x.fasta", [fasta_record "s" "AAA"])]).
    + reflexivity.
    + exists [], [], []. reflexivity.
Defined.

Example merge_two_files :
  merge_fasta_files.main
    [("b.fa", [fasta_record "y" "AAA"]); ("A.fasta", [fasta_record "x" "MKV"])] =
  Ok (">A|x" +:+ LF +:+ "MKV" +:+ LF +:+ ">b|y" +:+ LF +:+ "AAA" +:+ LF).
Proof. reflexivity. Qed.

(** C4 (as stated) fails where two records get the same key: the files
    [x.fasta] and [x.fa] each hold a record [s], both copies are named
    [x|s], and the two orders of listing the files give the two orders of
    the output. *)
Lemma merge_listing_order_shows :
  [("x.fasta", [fasta_record "s" "AAA"]); ("x.fa", [fasta_record "s" "CCC"])] ≡ₚ
  [("x.fa", [fasta_record "s" "CCC"]); ("x.fasta", [fasta_record "s" "AAA"])] /\
  merge_fasta_files.main
    [("x.fasta", [fasta_record "s" "AAA"]); ("x.fa", [fasta_record "s" "CCC"])] =
  Ok (">x|s" +:+ LF +:+ "AAA" +:+ LF +:+ ">x|s" +:+ LF +:+ "CCC" +:+ LF) /\
  merge_fasta_files.main
    [("x.fa", [fasta_record "s" "CCC"]); ("x.fasta", [fasta_record "s" "AAA"])] =
  Ok (">x|s" +:+ LF +:+ "CCC" +:+ LF +:+ ">x|s" +:+ LF +:+ "AAA" +:+ LF) /\
  merge_fasta_files.main
    [("x.fasta", [fasta_record "s" "AAA"]); ("x.fa", [fasta_record "s" "CCC"])] <>
  merge_fasta_files.main
    [("x.fa", [fasta_record "s" "CCC"]); ("x.fasta", [fasta_record "s" "AAA"])].
Proof.
  split; [apply perm_swap|]. split; [reflexivity|]. split; [reflexivity|].
  vm_compute. discriminate.
Qed.

(** The same happens between names that differ in case or in leading
    zeros only. *)
Example merge_ties_by_key :
  natural_key "sp1|x" = natural_key "sp01|x" /\
  natural_key "A|x" = natural_key "a|x" /\
  merge_fasta_files.main
    [("sp1.fa", [fasta_record "x" "AAA"]); ("sp01.fa", [fasta_record "x" "CCC"])] =
  Ok (">sp1|x" +:+ LF +:+ "AAA" +:+ LF +:+ ">sp01|x" +:+ LF +:+ "CCC" +:+ LF) /\
  merge_fasta_files.main
    [("sp01.fa", [fasta_record "x" "CCC"]); ("sp1.fa", [fasta_record "x" "AAA"])] =
  Ok (">sp01|x" +:+ LF +:+ "CCC" +:+ LF +:+ ">sp1|x" +:+ LF +:+ "AAA" +:+ LF).
Proof. repeat split; reflexivity. Qed.

(** ** Runs on the same inputs *)

Section Runs.

Import merge_fasta_files.

Lemma listdir_two {X : Type} (k1 k2 : string) (v1 v2 : X) :
  k1 <> k2 ->
  listdir {[ k1 := v1; k2 := v2 ]} [(k1, v1); (k2, v2)] /\
  listdir {[ k1 := v1; k2 := v2 ]} [(k2, v2); (k1, v1)].
Proof.
  intros Hne. unfold listdir.
  assert (H : map_to_list ({[ k1 := v1; k2 := v2 ]} : gmap string X) ≡ₚ
              [(k1, v1); (k2, v2)]).
  { rewrite map_to_list_insert by by rewrite lookup_singleton_ne.
    by rewrite map_to_list_singleton. }
  split; rewrite H; [done|apply perm_swap].
Qed.

(** Whatever the order of the listing, a directory in which no two records
    get the same key has one output. *)
Lemma run_functional (dir : gmap string (list SeqRecord)) (out1 out2 : result string) :
  List.NoDup (map (fun record => natural_key (id record))
                  (records (map_to_list dir))) ->
  run dir out1 -> run dir out2 -> out1 = out2.
Proof.
  intros Hnd [l1 [Hl1 <-]] [l2 [Hl2 <-]]. unfold listdir in *. unfold main.
  rewrite <- (sorted_records_listing (map_to_list dir) l1) by done.
  by rewrite <- (sorted_records_listing (map_to_list dir) l2).
Qed.

End Runs.

(** ** What is written *)

Section Written.

Lemma as_fasta_plain (record : SeqRecord) :
  description record = "" ->
  as_fasta record = Ok (">" +:+ clean (id record) +:+ LF +:+ wrap 60 (seq record)).
Proof. unfold as_fasta, title_of. by intros ->. Qed.

Lemma write_plain (records : list SeqRecord) :
  (forall record, In record records -> description record = "") ->
  write records =
  Ok (fold_right (fun record text =>
                    (">" +:+ clean (id record) +:+ LF +:+ wrap 60 (seq record))
                    +:+ text) "" records).
Proof.
  induction records as [|record records IH]; intros H; simpl; [done|].
  rewrite (as_fasta_plain record) by (apply H; by left). simpl.
  rewrite IH by (intros r Hr; apply H; by right). done.
Qed.

Lemma clean_char_not_line_break (c : ascii) :
  not_line_break c = true -> clean_char c = c.
Proof.
  unfold not_line_break, clean_char. intros H. apply negb_true_iff in H.
  by rewrite H.
Qed.

Lemma clean_not_line_break (s : string) :
  Py.all_chars not_line_break s = true -> clean s = s.
Proof.
  induction s as [|c s IH]; simpl; [done|]. rewrite andb_true_iff.
  intros [Hc Hs]. by rewrite (clean_char_not_line_break c Hc), (IH Hs).
Qed.

Lemma notspace_not_line_break (c : ascii) :
  notspace c = true -> not_line_break c = true.
Proof.
  unfold notspace, not_line_break. intros H.
  destruct (Ascii.eqb_spec c "010") as [->|_]; [done|].
  destruct (Ascii.eqb_spec c "013") as [->|_]; done.
Qed.

Lemma all_chars_impl (p q : ascii -> bool) (s : string) :
  (forall c, p c = true -> q c = true) ->
  Py.all_chars p s = true -> Py.all_chars q s = true.
Proof.
  intros Hpq. induction s as [|c s IH]; simpl; [done|].
  rewrite !andb_true_iff. intros [Hc Hs]. split; [by apply Hpq|by apply IH].
Qed.

(** A token has no white space in it. *)
Lemma split_from_notspace (cur s : string) :
  Py.all_chars notspace cur = true ->
  Forall (fun w => Py.all_chars notspace w = true) (Py.split_from cur s).
Proof.
  revert cur. induction s as [|c s IH]; intros cur Hcur; simpl.
  - destruct cur; simpl; [constructor|]. by repeat constructor.
  - destruct (Py.isspace c) eqn:Hc.
    + apply Forall_app. split; [|by apply IH].
      destruct cur; simpl; [constructor|]. by repeat constructor.
    + apply IH. rewrite all_chars_snoc, Hcur. unfold notspace. by rewrite Hc.
Qed.

(** The record of a title is written under that title. *)
Lemma as_fasta_parsed (title residues : string) :
  clean title = title -> Py.split title <> [] ->
  as_fasta (fasta_record title residues) =
  Ok (">" +:+ title +:+ LF +:+ wrap 60 residues).
Proof.
  intros Hclean Hsplit. unfold as_fasta, title_of, fasta_record. simpl.
  rewrite Hclean. destruct title as [|c title]; [done|].
  pose proof (split_from_notspace "" (String c title) eq_refl) as Hw.
  fold (Py.split (String c title)) in Hw.
  destruct (Py.split (String c title)) as [|w ws]; [done|]. simpl.
  apply Forall_cons in Hw as [Hw _].
  rewrite (clean_not_line_break w).
  - by rewrite String.eqb_refl.
  - apply (all_chars_impl notspace); [apply notspace_not_line_break|done].
Qed.

Lemma extract_records_description (seqs : gmap string (list string))
    (input : list SeqRecord) (record : SeqRecord) :
  In record (extract_and_rename_sequences.records seqs input) ->
  description record = "".
Proof.
  rewrite records_flat_map, in_flat_map. intros [r [_ Hr]].
  apply in_map_iff in Hr as [sequence_id [<- _]]. done.
Qed.

Lemma merge_records_description (listing : list (string * list SeqRecord))
    (record : SeqRecord) :
  In record (merge_fasta_files.records listing) -> description record = "".
Proof.
  rewrite records_flat_map_all, in_flat_map. intros [entry [_ Hr]].
  destruct (Py.endswith_any (fst entry) [".fasta"; ".fa"]); [|done].
  apply in_map_iff in Hr as [r [<- _]]. done.
Qed.

End Written.

(** C7 (as the code has it): every record that Rename/Extract and Merge
    write has an empty description, and such a record is written under a
    header of the mark, its identifier (with a line break, if it has one,
    turned into a space) and nothing more, so these two scripts always
    write.  Keep/Verify writes its input records as they are: a record that
    the parser made from a title is written under the whole title. *)
Theorem written_headers :
  (forall (seqs : gmap string (list string)) (input : list SeqRecord)
          (record : SeqRecord),
     In record (extract_and_rename_sequences.sorted_records
                  (extract_and_rename_sequences.records seqs input)) ->
     description record = "") /\
  (forall (listing : list (string * list SeqRecord)) (record : SeqRecord),
     In record (merge_fasta_files.sorted_records
                  (merge_fasta_files.records listing)) ->
     description record = "") /\
  (forall record : SeqRecord,
     description record = "" ->
     as_fasta record =
     Ok (">" +:+ clean (id record) +:+ LF +:+ wrap 60 (seq record))) /\
  (forall s : string, Py.all_chars not_line_break s = true -> clean s = s) /\
  (forall (seqs : gmap string (list string)) (input : list SeqRecord),
     exists text,
       SeqIO.write (extract_and_rename_sequences.sorted_records
                      (extract_and_rename_sequences.records seqs input)) = Ok text) /\
  (forall listing : list (string * list SeqRecord),
     exists text, merge_fasta_files.main listing = Ok text) /\
  (forall (keep : list string) (input : list SeqRecord) (record : SeqRecord),
     In record (keep_verified_sequences.kept_records keep input) ->
     In record input) /\
  (forall title residues : string,
     clean title = title -> Py.split title <> [] ->
     description (fasta_record title residues) = title /\
     as_fasta (fasta_record title residues) =
     Ok (">" +:+ title +:+ LF +:+ wrap 60 residues)).
Proof.
  repeat apply conj.
  - intros seqs input record H. apply (extract_records_description seqs input).
    by apply (proj1 (sorted_In _ _ _ _) H).
  - intros listing record H. apply (merge_records_description listing).
    by apply (proj1 (sorted_In _ _ _ _) H).
  - apply as_fasta_plain.
  - apply clean_not_line_break.
  - intros seqs input. eexists. apply write_plain. intros record H.
    apply (extract_records_description seqs input).
    by apply (proj1 (sorted_In _ _ _ _) H).
  - intros listing. eexists. apply write_plain. intros record H.
    apply (merge_records_description listing).
    by apply (proj1 (sorted_In _ _ _ _) H).
  - intros keep input record. rewrite kept_records_filter, filter_In. by intros [H _].
  - intros title residues Hclean Hsplit. split; [done|].
    by apply as_fasta_parsed.
Qed.

Lemma written_headers_witness :
  description (fasta_record "foo|seq1 kinase" "MKV") = "foo|seq1 kinase" /\
  as_fasta (fasta_record "foo|seq1 kinase" "MKV") =
  Ok (">" +:+ "foo|seq1 kinase" +:+ LF +:+ wrap 60 "MKV").
Proof.
  apply (proj2 (proj2 (proj2 (proj2 (proj2 (proj2 (proj2 written_headers))))))
           "foo|seq1 kinase" "MKV").
  - reflexivity.
  - discriminate.
Defined.

(** C7 (as stated) fails for Keep/Verify: the record of the title
    [foo|seq1 kinase] is kept with its description and written under the
    whole title, not under its identifier alone. *)
Lemma keep_verify_writes_description :
  map description
      (keep_verified_sequences.kept_records
         (keep_verified_sequences.keep_strings ["foo" +:+ LF])
         [fasta_record "foo|seq1 kinase" "MKV"]) = ["foo|seq1 kinase"] /\
  keep_verified_sequences.main [fasta_record "foo|seq1 kinase" "MKV"] ["foo" +:+ LF] =
  Ok (">foo|seq1 kinase" +:+ LF +:+ "MKV" +:+ LF) /\
  id (fasta_record "foo|seq1 kinase" "MKV") = "foo|seq1".
Proof. repeat split; reflexivity. Qed.

(** * Further properties of the scripts *)

(** ** Sorting again, and listing in another order *)

Section SortedMore.
Context {A K : Type} (key : A -> K) (ltb : K -> K -> bool).

Lemma sorted_fixpoint (l : list A) :
  StronglySorted (fun x y => ltb (key y) (key x) = false) l ->
  Py.sorted key ltb l = l.
Proof.
  induction 1 as [|x l Hl IH Hx]; simpl; [done|]. rewrite IH.
  destruct l as [|y l]; simpl; [done|].
  apply Forall_cons in Hx as [Hy _]. by rewrite Hy.
Qed.

End SortedMore.

Section PermFacts.

Lemma filter_perm {A : Type} (p : A -> bool) (l1 l2 : list A) :
  l1 ≡ₚ l2 -> List.filter p l1 ≡ₚ List.filter p l2.
Proof.
  induction 1 as [|x l1 l2 H IH|x y l|l1 l2 l3 H1 IH1 H2 IH2]; simpl.
  - done.
  - destruct (p x); [by constructor|done].
  - destruct (p x), (p y); try done. apply perm_swap.
  - by etrans.
Qed.

Lemma flat_map_perm_ext {A B : Type} (f g : A -> list B) (l : list A) :
  (forall x, f x ≡ₚ g x) -> flat_map f l ≡ₚ flat_map g l.
Proof.
  intros H. induction l as [|x l IH]; simpl; [done|].
  by apply Permutation_app.
Qed.

Lemma existsb_perm {A : Type} (p : A -> bool) (l1 l2 : list A) :
  l1 ≡ₚ l2 -> existsb p l1 = existsb p l2.
Proof.
  intros H. destruct (existsb p l1) eqn:H1; symmetry.
  - apply existsb_exists in H1 as [x [Hx Hp]]. apply existsb_exists.
    exists x. split; [|done]. by apply (Permutation_in x H).
  - destruct (existsb p l2) eqn:H2; [|done].
    apply existsb_exists in H2 as [x [Hx Hp]].
    assert (existsb p l1 = true); [|congruence].
    apply existsb_exists. exists x. split; [|done].
    by apply (Permutation_in x (Permutation_sym H)).
Qed.

End PermFacts.

(** X14: sorting the sorted records again changes nothing: the order that
    Rename/Extract and Merge write is a fixed point of their sort. *)
Theorem sorted_records_idempotent (records : list SeqRecord) :
  extract_and_rename_sequences.sorted_records
    (extract_and_rename_sequences.sorted_records records) =
  extract_and_rename_sequences.sorted_records records /\
  merge_fasta_files.sorted_records (merge_fasta_files.sorted_records records) =
  merge_fasta_files.sorted_records records.
Proof.
  assert (H : Natsort.natsorted (fun record => Py.lower (id record))
                (Natsort.natsorted (fun record => Py.lower (id record)) records) =
              Natsort.natsorted (fun record => Py.lower (id record)) records).
  { apply sorted_fixpoint.
    apply (natsorted_sorted (fun record => Py.lower (id record))). }
  by split.
Qed.

(** ** Rename/Extract as a whole *)

Section ExtractWhole.

Import extract_and_rename_sequences.

Lemma write_plain_entries (records : list SeqRecord) :
  (forall record, In record records -> description record = "") ->
  write records = Ok (fold_right (fun record text => plain_entry record +:+ text)
                                 "" records).
Proof. apply write_plain. Qed.

Lemma mapping_pairs_perm (l1 l2 : list string) :
  l1 ≡ₚ l2 -> mapping_pairs l1 ≡ₚ mapping_pairs l2.
Proof. intros H. unfold mapping_pairs. by apply Permutation_flat_map. Qed.

Lemma labels_of_perm (l1 l2 : list string) (k : string) :
  l1 ≡ₚ l2 -> labels_of l1 k ≡ₚ labels_of l2 k.
Proof.
  intros H. unfold labels_of. apply Permutation_map, filter_perm.
  by apply mapping_pairs_perm.
Qed.

Lemma records_labels (list_file : list string) (seqs : gmap string (list string))
    (input : list SeqRecord) :
  sequences list_file = Ok seqs ->
  records seqs input =
  flat_map (fun record => map (fun label => sequence_record label record)
                              (labels_of list_file (id record))) input.
Proof.
  intros H. rewrite records_flat_map. apply flat_map_ext. intros record.
  by rewrite (proj1 (sequences_lookup list_file seqs (id record) H)).
Qed.

Lemma records_perm_inputs (l1 l2 : list string)
    (seqs1 seqs2 : gmap string (list string)) (input1 input2 : list SeqRecord) :
  l1 ≡ₚ l2 -> input1 ≡ₚ input2 ->
  sequences l1 = Ok seqs1 -> sequences l2 = Ok seqs2 ->
  records seqs1 input1 ≡ₚ records seqs2 input2.
Proof.
  intros Hl Hi H1 H2.
  rewrite (records_labels l1 seqs1 input1 H1), (records_labels l2 seqs2 input2 H2).
  etrans; [by apply Permutation_flat_map|].
  apply flat_map_perm_ext. intros record. apply Permutation_map.
  by apply labels_of_perm.
Qed.

End ExtractWhole.

(** C9 (as the code has it): what Rename/Extract writes is given by the
    records of the input file and the lines of the list file alone, and what
    Merge writes by the listing of the directory alone.  Over the orders in
    which a directory can be listed, Merge has one output when no two of
    its records get the same key; in every run the records with the same
    key are written in the order in which the listing of that run brought
    them. *)
Theorem reruns_give_same_output :
  (forall (input : list SeqRecord) (list_file : list string),
     extract_and_rename_sequences.main input list_file =
     if existsb (fun line => length (Py.split line) <? 2) list_file
     then Raise IndexError
     else Ok (fold_right (fun record text => plain_entry record +:+ text) ""
                (Natsort.natsorted (fun record => Py.lower (id record))
                   (flat_map
                      (fun record =>
                         map (fun label =>
                                {| id := label +:+ "|" +:+ id record;
                                   name := name record;
                                   description := "";
                                   seq := seq record |})
                             (labels_of list_file (id record)))
                      input)))) /\
  (forall listing : list (string * list SeqRecord),
     merge_fasta_files.main listing =
     Ok (fold_right (fun record text => plain_entry record +:+ text) ""
           (Natsort.natsorted (fun record => Py.lower (id record))
              (flat_map
                 (fun entry =>
                    map (fun record =>
                           {| id := Py.rsplit1_head "." (fst entry) +:+ "|" +:+ id record;
                              name := name record;
                              description := "";
                              seq := seq record |})
                        (snd entry))
                 (List.filter
                    (fun entry => Py.endswith_any (fst entry) [".fasta"; ".fa"])
                    listing))))) /\
  (forall (dir : gmap string (list SeqRecord)) (out1 out2 : result string),
     List.NoDup (map (fun record => natural_key (id record))
                     (merge_fasta_files.records (map_to_list dir))) ->
     merge_fasta_files.run dir out1 -> merge_fasta_files.run dir out2 ->
     out1 = out2) /\
  (forall (dir : gmap string (list SeqRecord)) (out : result string),
     merge_fasta_files.run dir out ->
     exists listing,
       merge_fasta_files.listdir dir listing /\
       out = Ok (fold_right (fun record text => plain_entry record +:+ text) ""
                   (merge_fasta_files.sorted_records
                      (merge_fasta_files.records listing))) /\
       (forall x y : SeqRecord,
          natural_key (id x) = natural_key (id y) ->
          comes_before x y (merge_fasta_files.records listing) ->
          comes_before x y (merge_fasta_files.sorted_records
                              (merge_fasta_files.records listing))) /\
       (forall p : SeqRecord -> bool,
          (forall x y, p x = true -> p y = true ->
                       natural_key (id x) = natural_key (id y)) ->
          List.filter p (merge_fasta_files.sorted_records
                           (merge_fasta_files.records listing)) =
          List.filter p (merge_fasta_files.records listing))).
Proof.
  assert (Hmerge : forall listing : list (string * list SeqRecord),
    merge_fasta_files.main listing =
    Ok (fold_right (fun record text => plain_entry record +:+ text) ""
          (merge_fasta_files.sorted_records (merge_fasta_files.records listing)))).
  { intros listing. unfold merge_fasta_files.main. apply write_plain_entries.
    intros record Hr. apply (merge_records_description listing).
    by apply (proj1 (sorted_In _ _ _ _) Hr). }
  split; [|split; [|split]].
  - intros input list_file. pose proof (sequences_outcome list_file) as H.
    unfold extract_and_rename_sequences.main.
    destruct (existsb _ list_file); [by rewrite H|].
    destruct H as [seqs H]. rewrite H. simpl.
    rewrite write_plain_entries.
    + unfold extract_and_rename_sequences.sorted_records.
      by rewrite (records_labels list_file seqs input H).
    + intros record Hr. apply (extract_records_description seqs input).
      by apply (proj1 (sorted_In _ _ _ _) Hr).
  - intros listing. rewrite Hmerge. unfold merge_fasta_files.sorted_records.
    rewrite records_flat_map_all.
    by rewrite (flat_map_filter
                  (fun entry => Py.endswith_any (fst entry) [".fasta"; ".fa"])
                  (fun entry => map (merge_fasta_files.gene_record (fst entry))
                                    (snd entry))).
  - apply run_functional.
  - intros dir out [listing [Hl <-]]. exists listing. split; [done|].
    split; [apply Hmerge|]. split.
    + intros x y Hxy.
      apply (natsorted_keeps_order (fun record => Py.lower (id record))). exact Hxy.
    + intros p Hp.
      apply (natsorted_stable (fun record => Py.lower (id record))). exact Hp.
Qed.

Lemma reruns_give_same_output_witness :
  merge_fasta_files.main
    [("A.fasta", [fasta_record "x" "MKV"]); ("b.fa", [fasta_record "y" "AAA"])] =
  merge_fasta_files.main
    [("b.fa", [fasta_record "y" "AAA"]); ("A.fasta", [fasta_record "x" "MKV"])] /\
  exists listing,
    merge_fasta_files.listdir
      ({[ "x.fasta" := [fasta_record "s" "AAA"];
          "x.fa" := [fasta_record "s" "CCC"] ]} : gmap string (list SeqRecord))
      listing /\
    merge_fasta_files.main
      [("x.fa", [fasta_record "s" "CCC"]); ("x.fasta", [fasta_record "s" "AAA"])] =
    Ok (fold_right (fun record text => plain_entry record +:+ text) ""
          (merge_fasta_files.sorted_records (merge_fasta_files.records listing))) /\
    (forall x y : SeqRecord,
       natural_key (id x) = natural_key (id y) ->
       comes_before x y (merge_fasta_files.records listing) ->
       comes_before x y (merge_fasta_files.sorted_records
                           (merge_fasta_files.records listing))) /\
    (forall p : SeqRecord -> bool,
       (forall x y, p x = true -> p y = true ->
                    natural_key (id x) = natural_key (id y)) ->
       List.filter p (merge_fasta_files.sorted_records
                        (merge_fasta_files.records listing)) =
       List.filter p (merge_fasta_files.records listing)).
Proof.
  split.
  - apply (proj1 (proj2 (proj2 reruns_give_same_output))
             {[ "A.fasta" := [fasta_record "x" "MKV"];
                "b.fa" := [fasta_record "y" "AAA"] ]}).
    + vm_compute. repeat constructor; simpl; intuition discriminate.
    + eexists. split; [|reflexivity].
      apply (proj1 (listdir_two "A.fasta" "b.fa" _ _ ltac:(discriminate))).
    + eexists. split; [|reflexivity].
      apply (proj2 (listdir_two "A.fasta" "b.fa" _ _ ltac:(discriminate))).
  - apply (proj2 (proj2 (proj2 reruns_give_same_output))
             {[ "x.fasta" := [fasta_record "s" "AAA"];
                "x.fa" := [fasta_record "s" "CCC"] ]}).
    eexists. split; [|reflexivity].
    apply (proj2 (listdir_two "x.fasta" "x.fa" _ _ ltac:(discriminate))).
Defined.

(** C9 (as stated) fails for Merge on a directory with the files
    [x.fasta] and [x.fa], each holding a record [s]: the directory has two
    outputs, one for each order of listing it. *)
Lemma merge_two_outputs :
  merge_fasta_files.run
    {[ "x.fasta" := [fasta_record "s" "AAA"]; "x.fa" := [fasta_record "s" "CCC"] ]}
    (Ok (">x|s" +:+ LF +:+ "AAA" +:+ LF +:+ ">x|s" +:+ LF +:+ "CCC" +:+ LF)) /\
  merge_fasta_files.run
    {[ "x.fasta" := [fasta_record "s" "AAA"]; "x.fa" := [fasta_record "s" "CCC"] ]}
    (Ok (">x|s" +:+ LF +:+ "CCC" +:+ LF +:+ ">x|s" +:+ LF +:+ "AAA" +:+ LF)) /\
  (Ok (">x|s" +:+ LF +:+ "AAA" +:+ LF +:+ ">x|s" +:+ LF +:+ "CCC" +:+ LF)
     : result string) <>
  Ok (">x|s" +:+ LF +:+ "CCC" +:+ LF +:+ ">x|s" +:+ LF +:+ "AAA" +:+ LF).
Proof.
  repeat apply conj.
  - eexists. split; [apply (proj1 (listdir_two "x.fasta" "x.fa" _ _ ltac:(discriminate)))|].
    reflexivity.
  - eexists. split; [apply (proj2 (listdir_two "x.fasta" "x.fa" _ _ ltac:(discriminate)))|].
    reflexivity.
  - vm_compute. discriminate.
Qed.

(** X1: Rename/Extract aborts, with [IndexError], exactly when the list
    file has a line of fewer than two tokens, whatever the input records;
    otherwise it writes, for the sorted copies in turn, the header line of
    the mark and the identifier and the wrapped residues. *)
Theorem extract_main_outcome (input : list SeqRecord) (list_file : list string) :
  if existsb (fun line => length (Py.split line) <? 2) list_file
  then extract_and_rename_sequences.main input list_file = Raise IndexError
  else exists seqs,
         extract_and_rename_sequences.sequences list_file = Ok seqs /\
         extract_and_rename_sequences.main input list_file =
         Ok (fold_right (fun record text => plain_entry record +:+ text) ""
               (extract_and_rename_sequences.sorted_records
                  (extract_and_rename_sequences.records seqs input))).
Proof.
  pose proof (sequences_outcome list_file) as H.
  unfold extract_and_rename_sequences.main.
  destruct (existsb _ list_file).
  - by rewrite H.
  - destruct H as [seqs H]. exists seqs. split; [done|]. rewrite H. simpl.
    apply write_plain_entries. intros record Hr.
    apply (extract_records_description seqs input).
    by apply (proj1 (sorted_In _ _ _ _) Hr).
Qed.

(** X2: the order of the lines of the list file and the order of the
    records of the input file do not show in what Rename/Extract writes,
    when no two of the copies have the same key. *)
Theorem extract_order_irrelevant (input1 input2 : list SeqRecord)
    (list_file1 list_file2 : list string) (seqs : gmap string (list string)) :
  input1 ≡ₚ input2 ->
  list_file1 ≡ₚ list_file2 ->
  extract_and_rename_sequences.sequences list_file1 = Ok seqs ->
  List.NoDup (map (fun record => natural_key (id record))
                  (extract_and_rename_sequences.records seqs input1)) ->
  extract_and_rename_sequences.main input1 list_file1 =
  extract_and_rename_sequences.main input2 list_file2.
Proof.
  intros Hi Hl Hs Hnd.
  pose proof (sequences_outcome list_file1) as H1.
  pose proof (sequences_outcome list_file2) as H2.
  rewrite (existsb_perm _ list_file1 list_file2 Hl) in H1.
  destruct (existsb _ list_file2); [congruence|].
  destruct H2 as [seqs2 H2]. unfold extract_and_rename_sequences.main.
  rewrite Hs, H2. simpl. f_equal.
  apply natsorted_unique; [|done].
  by apply (records_perm_inputs list_file1 list_file2).
Qed.

Lemma extract_order_irrelevant_witness :
  extract_and_rename_sequences.main
    [fasta_record "seq1 kinase" "MKV"; fasta_record "seq2" "AAA"]
    ["beta seq1" +:+ LF; "alpha seq2" +:+ LF; "alpha seq1" +:+ LF] =
  extract_and_rename_sequences.main
    [fasta_record "seq2" "AAA"; fasta_record "seq1 kinase" "MKV"]
    ["alpha seq1" +:+ LF; "beta seq1" +:+ LF; "alpha seq2" +:+ LF].
Proof.
  apply (extract_order_irrelevant
           [fasta_record "seq1 kinase" "MKV"; fasta_record "seq2" "AAA"]
           [fasta_record "seq2" "AAA"; fasta_record "seq1 kinase" "MKV"]
           ["beta seq1" +:+ LF; "alpha seq2" +:+ LF; "alpha seq1" +:+ LF]
           ["alpha seq1" +:+ LF; "beta seq1" +:+ LF; "alpha seq2" +:+ LF]
           {[ "seq1" := ["beta"; "alpha"]; "seq2" := ["alpha"] ]}).
  - apply perm_swap.
  - eapply perm_trans; [apply perm_skip, perm_swap|apply perm_swap].
  - vm_compute. reflexivity.
  - vm_compute. repeat constructor; simpl; intuition discriminate.
Defined.

(** ** Keep/Verify as a whole *)

Section KeepWhole.

Import keep_verified_sequences.

Lemma any_in_same_strings (keep1 keep2 : list string) (record : SeqRecord) :
  (forall s, In s keep1 <-> In s keep2) ->
  any_in keep1 record = any_in keep2 record.
Proof.
  intros H. unfold any_in.
  destruct (existsb (fun string => Py.str_in string (id record)) keep1) eqn:H1;
    symmetry.
  - apply existsb_exists in H1 as [s [Hs Hp]]. apply existsb_exists.
    exists s. split; [by apply H|done].
  - destruct (existsb (fun string => Py.str_in string (id record)) keep2) eqn:H2;
      [|done].
    apply existsb_exists in H2 as [s [Hs Hp]].
    assert (existsb (fun string => Py.str_in string (id record)) keep1 = true);
      [|congruence].
    apply existsb_exists. exists s. split; [by apply H|done].
Qed.

Lemma filter_filter_comm {A : Type} (p q : A -> bool) (l : list A) :
  List.filter p (List.filter q l) = List.filter q (List.filter p l).
Proof.
  induction l as [|x l IH]; simpl; [done|].
  destruct (p x) eqn:Hp, (q x) eqn:Hq; simpl; rewrite ?Hp, ?Hq, IH; done.
Qed.

Lemma filter_idem {A : Type} (p : A -> bool) (l : list A) :
  List.filter p (List.filter p l) = List.filter p l.
Proof.
  induction l as [|x l IH]; simpl; [done|].
  destruct (p x) eqn:Hp; simpl; rewrite ?Hp, IH; done.
Qed.

Lemma as_fasta_entry (title residues : string) :
  clean title = title -> (title = "" \/ Py.split title <> []) ->
  as_fasta (fasta_record title residues) = Ok (entry_text (title, residues)).
Proof.
  intros Hclean [->|Hsplit]; [done|]. by apply as_fasta_parsed.
Qed.

Lemma write_entries (entries : list (string * string)) :
  (forall entry, In entry entries ->
                 clean (fst entry) = fst entry /\
                 (fst entry = "" \/ Py.split (fst entry) <> [])) ->
  write (map (fun entry => fasta_record (fst entry) (snd entry)) entries) =
  Ok (fold_right (fun entry text => entry_text entry +:+ text) "" entries).
Proof.
  induction entries as [|[title residues] entries IH]; intros H; simpl; [done|].
  destruct (H (title, residues)) as [Hc Hs]; [by left|].
  rewrite (as_fasta_entry title residues Hc Hs). simpl.
  rewrite IH by (intros e He; apply H; by right). done.
Qed.

Lemma filter_map_comm {A B : Type} (f : A -> B) (p : B -> bool) (l : list A) :
  List.filter p (map f l) = map f (List.filter (fun x => p (f x)) l).
Proof.
  induction l as [|x l IH]; simpl; [done|].
  destruct (p (f x)); simpl; by rewrite IH.
Qed.

End KeepWhole.

(** X3: what Keep/Verify keeps depends on the keep list only through the
    set of its stripped lines: their order, their repetition and the white
    space around them do not matter. *)
Theorem keep_list_as_set (file1 file2 : list string) (input : list SeqRecord) :
  (forall s, In s (map Py.strip file1) <-> In s (map Py.strip file2)) ->
  keep_verified_sequences.main input file1 =
  keep_verified_sequences.main input file2.
Proof.
  intros H. unfold keep_verified_sequences.main. f_equal.
  rewrite !kept_records_filter. apply filter_ext. intros record.
  apply any_in_same_strings. intros s. rewrite !keep_strings_map, !in_map_iff.
  split; intros [line [<- Hl]].
  - assert (Hs : In (Py.strip line) (map Py.strip file2)).
    { apply H, in_map_iff. by exists line. }
    apply in_map_iff in Hs as [line2 [Heq H2]]. exists line2. by rewrite Heq.
  - assert (Hs : In (Py.strip line) (map Py.strip file1)).
    { apply H, in_map_iff. by exists line. }
    apply in_map_iff in Hs as [line1 [Heq H1]]. exists line1. by rewrite Heq.
Qed.

Lemma keep_list_as_set_witness :
  keep_verified_sequences.main
    [fasta_record "foo|seq1 kinase" "MKV"; fasta_record "bar|seq3" "CC"]
    ["foo" +:+ LF; " bar " +:+ LF; "foo" +:+ LF] =
  keep_verified_sequences.main
    [fasta_record "foo|seq1 kinase" "MKV"; fasta_record "bar|seq3" "CC"]
    ["bar" +:+ LF; "foo"].
Proof.
  apply (keep_list_as_set ["foo" +:+ LF; " bar " +:+ LF; "foo" +:+ LF]
                          ["bar" +:+ LF; "foo"]).
  intros s. vm_compute. intuition.
Defined.

(** X4: a second pass of Keep/Verify with the same keep list keeps all
    that the first kept, and two passes with two keep lists keep the same
    records in either order. *)
Theorem keep_verify_passes (keep1 keep2 : list string) (input : list SeqRecord) :
  keep_verified_sequences.kept_records keep1
    (keep_verified_sequences.kept_records keep1 input) =
  keep_verified_sequences.kept_records keep1 input /\
  keep_verified_sequences.kept_records keep2
    (keep_verified_sequences.kept_records keep1 input) =
  keep_verified_sequences.kept_records keep1
    (keep_verified_sequences.kept_records keep2 input).
Proof.
  rewrite !kept_records_filter. split; [apply filter_idem|apply filter_filter_comm].
Qed.

(** X5: on the records that the parser makes from title lines (a title has
    no line break, and is empty or has a word), Keep/Verify never aborts: it
    writes the kept entries in the order of the input, each under its whole
    title line and with its residues wrapped. *)
Theorem keep_verify_writes_entries (entries : list (string * string))
    (file : list string) :
  (forall entry, In entry entries ->
                 clean (fst entry) = fst entry /\
                 (fst entry = "" \/ Py.split (fst entry) <> [])) ->
  keep_verified_sequences.main
    (map (fun entry => fasta_record (fst entry) (snd entry)) entries) file =
  Ok (fold_right (fun entry text => entry_text entry +:+ text) ""
        (List.filter
           (fun entry => keep_verified_sequences.any_in
                           (keep_verified_sequences.keep_strings file)
                           (fasta_record (fst entry) (snd entry)))
           entries)).
Proof.
  intros H. unfold keep_verified_sequences.main.
  rewrite kept_records_filter, filter_map_comm. apply write_entries.
  intros entry He. apply filter_In in He as [He _]. by apply H.
Qed.

Lemma keep_verify_writes_entries_witness :
  keep_verified_sequences.main
    (map (fun entry => fasta_record (fst entry) (snd entry))
         [("foo|seq1 kinase", "MKV"); ("bar|seq3", "CC"); ("", "A")])
    ["foo" +:+ LF] =
  Ok (fold_right (fun entry text => entry_text entry +:+ text) ""
        (List.filter
           (fun entry => keep_verified_sequences.any_in
                           (keep_verified_sequences.keep_strings ["foo" +:+ LF])
                           (fasta_record (fst entry) (snd entry)))
           [("foo|seq1 kinase", "MKV"); ("bar|seq3", "CC"); ("", "A")])).
Proof.
  apply (keep_verify_writes_entries
           [("foo|seq1 kinase", "MKV"); ("bar|seq3", "CC"); ("", "A")]
           ["foo" +:+ LF]).
  intros entry He. simpl in He.
  destruct He as [<-|[<-|[<-|[]]]]; (split; [reflexivity|]).
  - right. discriminate.
  - right. discriminate.
  - by left.
Defined.

(** ** One script after another *)

Section Composition.

Lemma split_from_nonempty (cur s : string) :
  Forall (fun w => w <> "") (Py.split_from cur s).
Proof.
  revert cur. induction s as [|c s IH]; intros cur; simpl.
  - destruct cur; simpl; [constructor|]. by repeat constructor.
  - destruct (Py.isspace c).
    + apply Forall_app. split; [|apply IH].
      destruct cur; simpl; [constructor|]. by repeat constructor.
    + apply IH.
Qed.

(** A token is not empty and has no white space in it. *)
Lemma split_token (s w : string) :
  In w (Py.split s) -> w <> "" /\ Py.all_chars notspace w = true.
Proof.
  intros H. split.
  - by apply (proj1 (List.Forall_forall _ _) (split_from_nonempty "" s)).
  - by apply (proj1 (List.Forall_forall _ _) (split_from_notspace "" s eq_refl)).
Qed.

Lemma rstrip_all_space (ws : string) :
  Py.all_chars Py.isspace ws = true -> Py.rstrip ws = "".
Proof.
  induction ws as [|c ws IH]; simpl; [done|]. rewrite andb_true_iff.
  intros [Hc Hws]. by rewrite (IH Hws), Hc.
Qed.

Lemma rstrip_token_app (w ws : string) :
  w <> "" -> Py.all_chars notspace w = true ->
  Py.all_chars Py.isspace ws = true -> Py.rstrip (w +:+ ws) = w.
Proof.
  intros Hne Hw Hws. induction w as [|c w IH]; [done|].
  rewrite str_app_cons. simpl in *. apply andb_true_iff in Hw as [Hc Hw].
  unfold notspace in Hc. apply negb_true_iff in Hc.
  destruct w as [|c' w].
  - rewrite str_app_nil_l, (rstrip_all_space ws Hws). by rewrite Hc.
  - rewrite IH by done. done.
Qed.

(** A token followed by white space strips to the token. *)
Lemma strip_token_app (w ws : string) :
  w <> "" -> Py.all_chars notspace w = true ->
  Py.all_chars Py.isspace ws = true -> Py.strip (w +:+ ws) = w.
Proof.
  intros Hne Hw Hws. unfold Py.strip.
  assert (Hl : Py.lstrip (w +:+ ws) = w +:+ ws).
  { destruct w as [|c w]; [done|]. rewrite str_app_cons. simpl in *.
    apply andb_true_iff in Hw as [Hc _]. unfold notspace in Hc.
    apply negb_true_iff in Hc. by rewrite Hc. }
  rewrite Hl. by apply rstrip_token_app.
Qed.

Lemma mapping_pairs_In (list_file : list string) (label target : string) :
  In (label, target) (mapping_pairs list_file) <->
  exists line rest, In line list_file /\ Py.split line = label :: target :: rest.
Proof.
  unfold mapping_pairs. rewrite in_flat_map. split.
  - intros [line [Hl Hp]]. destruct (Py.split line) as [|a [|b rest]] eqn:Hs;
      try done. destruct Hp as [[= -> ->]|[]]. by exists line, rest.
  - intros [line [rest [Hl Hs]]]. exists line. split; [done|]. rewrite Hs. by left.
Qed.

Lemma labels_of_In (list_file : list string) (label target : string) :
  In label (labels_of list_file target) <-> In (label, target) (mapping_pairs list_file).
Proof.
  unfold labels_of. rewrite in_map_iff. split.
  - intros [[l t] [<- Hp]]. apply filter_In in Hp as [Hp Heq]. simpl in *.
    apply String.eqb_eq in Heq. by subst.
  - intros H. exists (label, target). split; [done|]. apply filter_In.
    split; [done|]. apply String.eqb_refl.
Qed.

Lemma any_in_prefixed (keep_line rest : string) (record : SeqRecord) :
  id record = Py.strip keep_line +:+ "|" +:+ rest ->
  keep_verified_sequences.any_in
    (keep_verified_sequences.keep_strings [keep_line]) record = true.
Proof.
  intros Hid. unfold keep_verified_sequences.any_in. rewrite keep_strings_map.
  simpl. rewrite orb_false_r. apply str_in_spec. exists "", rest.
  by rewrite Hid, str_app_nil_l, str_app_assoc.
Qed.

End Composition.

(** X6: Keep/Verify after Rename/Extract: a keep line that strips to a
    label keeps every copy that Rename/Extract made under that label, and the
    line made of a label of the list file and a line break is such a line. *)
Theorem keep_after_extract (list_file : list string)
    (seqs : gmap string (list string)) (input : list SeqRecord)
    (label target : string) :
  extract_and_rename_sequences.sequences list_file = Ok seqs ->
  In (label, target) (mapping_pairs list_file) ->
  Py.strip (label +:+ LF) = label /\
  forall (record : SeqRecord) (keep_line : string),
    In record input -> id record = target -> Py.strip keep_line = label ->
    In (extract_and_rename_sequences.sequence_record label record)
       (keep_verified_sequences.kept_records
          (keep_verified_sequences.keep_strings [keep_line])
          (extract_and_rename_sequences.sorted_records
             (extract_and_rename_sequences.records seqs input))).
Proof.
  intros Hs Hp. split.
  - apply mapping_pairs_In in Hp as [line [rest [_ Hsplit]]].
    destruct (split_token line label) as [Hne Hw]; [rewrite Hsplit; by left|].
    by apply strip_token_app.
  - intros record keep_line Hr Hid Hk. rewrite kept_records_filter.
    apply filter_In. split.
    + apply sorted_In. rewrite (records_labels list_file seqs input Hs).
      apply in_flat_map. exists record. split; [done|].
      apply (in_map (fun l => extract_and_rename_sequences.sequence_record l record)).
      rewrite Hid. by apply labels_of_In.
    + apply (any_in_prefixed keep_line (id record)). simpl. by rewrite Hk.
Qed.

Lemma keep_after_extract_witness :
  Py.strip ("alpha" +:+ LF) = "alpha" /\
  forall (record : SeqRecord) (keep_line : string),
    In record [fasta_record "seq1 kinase" "MKV"; fasta_record "seq2" "AAA"] ->
    id record = "seq1" -> Py.strip keep_line = "alpha" ->
    In (extract_and_rename_sequences.sequence_record "alpha" record)
       (keep_verified_sequences.kept_records
          (keep_verified_sequences.keep_strings [keep_line])
          (extract_and_rename_sequences.sorted_records
             (extract_and_rename_sequences.records
                {[ "seq1" := ["beta"; "alpha"] ]}
                [fasta_record "seq1 kinase" "MKV"; fasta_record "seq2" "AAA"]))).
Proof.
  apply (keep_after_extract ["beta seq1" +:+ LF; "alpha seq1" +:+ LF]
           {[ "seq1" := ["beta"; "alpha"] ]}
           [fasta_record "seq1 kinase" "MKV"; fasta_record "seq2" "AAA"]
           "alpha" "seq1").
  - reflexivity.
  - simpl. right. left. reflexivity.
Defined.

Lemma all_chars_app_and (p : ascii -> bool) (s t : string) :
  Py.all_chars p (s +:+ t) = Py.all_chars p s && Py.all_chars p t.
Proof.
  induction s as [|d s IH]; [done|].
  rewrite str_app_cons. simpl. by rewrite IH, andb_assoc.
Qed.

Lemma split_from_token (cur w : string) :
  Py.all_chars notspace w = true -> cur +:+ w <> "" ->
  Py.split_from cur w = [cur +:+ w].
Proof.
  revert cur. induction w as [|c w IH]; intros cur; simpl.
  - rewrite str_app_nil_r. intros _ H. by destruct cur.
  - rewrite andb_true_iff. intros [Hc Hw] _. unfold notspace in Hc.
    apply negb_true_iff in Hc. rewrite Hc. rewrite (IH _ Hw).
    + by rewrite str_app_assoc.
    + by destruct cur.
Qed.

(** A string without white space that is not empty is its own only token. *)
Lemma split_token_self (w : string) :
  Py.all_chars notspace w = true -> w <> "" -> Py.split w = [w].
Proof. intros Hw Hne. by apply (split_from_token "" w). Qed.

(** X7: Keep/Verify after Merge, through the file that Merge writes.  For
    a file that Merge takes whose name up to the last dot has no white space,
    and a record of it whose identifier has none: the copy is among the
    records written, under a header of the mark and its identifier; the
    record that the parser builds from that title has the same identifier,
    whatever residues it reads; and a keep line that strips to the file name
    up to its last dot keeps that record. *)
Theorem keep_after_merge (listing : list (string * list SeqRecord))
    (file_name : string) (input : list SeqRecord) (record : SeqRecord)
    (keep_line residues : string) :
  In (file_name, input) listing ->
  Py.endswith_any file_name [".fasta"; ".fa"] = true ->
  In record input ->
  Py.all_chars notspace (Py.rsplit1_head "." file_name) = true ->
  Py.all_chars notspace (id record) = true ->
  Py.strip keep_line = Py.rsplit1_head "." file_name ->
  In (merge_fasta_files.gene_record file_name record)
     (merge_fasta_files.sorted_records (merge_fasta_files.records listing)) /\
  as_fasta (merge_fasta_files.gene_record file_name record) =
    Ok (">" +:+ id (merge_fasta_files.gene_record file_name record) +:+ LF +:+
        wrap 60 (seq record)) /\
  id (fasta_record (id (merge_fasta_files.gene_record file_name record)) residues) =
    id (merge_fasta_files.gene_record file_name record) /\
  keep_verified_sequences.kept_records
    (keep_verified_sequences.keep_strings [keep_line])
    [fasta_record (id (merge_fasta_files.gene_record file_name record)) residues] =
  [fasta_record (id (merge_fasta_files.gene_record file_name record)) residues].
Proof.
  intros Hl He Hr Hstem Hid Hk.
  assert (Hw : Py.all_chars notspace
                 (id (merge_fasta_files.gene_record file_name record)) = true).
  { simpl. rewrite !all_chars_app_and, Hstem, Hid. done. }
  assert (Hne : id (merge_fasta_files.gene_record file_name record) <> "").
  { simpl. destruct (Py.rsplit1_head "." file_name); discriminate. }
  assert (Hparsed : forall r,
            id (fasta_record (id (merge_fasta_files.gene_record file_name record)) r) =
            id (merge_fasta_files.gene_record file_name record)).
  { intros r. unfold fasta_record. by rewrite (split_token_self _ Hw Hne). }
  repeat apply conj.
  - apply sorted_In. rewrite records_flat_map_all. apply in_flat_map.
    exists (file_name, input). split; [done|]. cbn [fst snd]. rewrite He.
    by apply in_map.
  - rewrite as_fasta_plain by done. rewrite clean_not_line_break; [done|].
    apply (all_chars_impl notspace); [apply notspace_not_line_break|done].
  - apply Hparsed.
  - rewrite kept_records_filter. cbn [List.filter].
    rewrite (any_in_prefixed keep_line (id record)); [done|].
    rewrite Hparsed. simpl. by rewrite Hk.
Qed.

Lemma keep_after_merge_witness :
  In (merge_fasta_files.gene_record "A.fasta" (fasta_record "x kinase" "MKV"))
     (merge_fasta_files.sorted_records
        (merge_fasta_files.records
           [("b.fa", [fasta_record "y" "AAA"]);
            ("A.fasta", [fasta_record "x kinase" "MKV"])])) /\
  as_fasta (merge_fasta_files.gene_record "A.fasta" (fasta_record "x kinase" "MKV")) =
    Ok (">" +:+
        id (merge_fasta_files.gene_record "A.fasta" (fasta_record "x kinase" "MKV"))
        +:+ LF +:+ wrap 60 (seq (fasta_record "x kinase" "MKV"))) /\
  id (fasta_record
        (id (merge_fasta_files.gene_record "A.fasta" (fasta_record "x kinase" "MKV")))
        "MKV") =
    id (merge_fasta_files.gene_record "A.fasta" (fasta_record "x kinase" "MKV")) /\
  keep_verified_sequences.kept_records
    (keep_verified_sequences.keep_strings ["A" +:+ LF])
    [fasta_record
       (id (merge_fasta_files.gene_record "A.fasta" (fasta_record "x kinase" "MKV")))
       "MKV"] =
  [fasta_record
     (id (merge_fasta_files.gene_record "A.fasta" (fasta_record "x kinase" "MKV")))
     "MKV"].
Proof.
  apply (keep_after_merge
           [("b.fa", [fasta_record "y" "AAA"]);
            ("A.fasta", [fasta_record "x kinase" "MKV"])]
           "A.fasta" [fasta_record "x kinase" "MKV"]).
  - simpl. right. left. reflexivity.
  - reflexivity.
  - simpl. left. reflexivity.
  - reflexivity.
  - reflexivity.
  - reflexivity.
Defined.

(** With a blank in the file name the identifier that is read back is the
    first word of the title only, and the keep line of the file name keeps
    nothing. *)
Example keep_after_merge_blank_in_name :
  merge_fasta_files.main [("Homo sapiens.fasta", [fasta_record "seq1" "MKV"])] =
    Ok (">Homo sapiens|seq1" +:+ LF +:+ "MKV" +:+ LF) /\
  id (fasta_record "Homo sapiens|seq1" "MKV") = "Homo" /\
  keep_verified_sequences.kept_records
    (keep_verified_sequences.keep_strings ["Homo sapiens" +:+ LF])
    [fasta_record "Homo sapiens|seq1" "MKV"] = [].
Proof. repeat split; reflexivity. Qed.

(** ** Merge: file names and empty output *)

Section MergeMore.

Import merge_fasta_files.

Lemma rsplit1_head_fasta (stem : string) :
  Py.rsplit1_head "." (stem +:+ ".fasta") = stem.
Proof. by apply (rsplit1_head_app stem "fasta"). Qed.

Lemma rsplit1_head_fa (stem : string) :
  Py.rsplit1_head "." (stem +:+ ".fa") = stem.
Proof. by apply (rsplit1_head_app stem "fa"). Qed.

Lemma qualifying_name (file_name : string) :
  Py.endswith_any file_name [".fasta"; ".fa"] = true ->
  file_name = Py.rsplit1_head "." file_name +:+ ".fasta" \/
  file_name = Py.rsplit1_head "." file_name +:+ ".fa".
Proof.
  unfold Py.endswith_any. simpl. rewrite orb_false_r, orb_true_iff, !endswith_spec.
  intros [[a ->]|[a ->]]; [left|right].
  - by rewrite rsplit1_head_fasta.
  - by rewrite rsplit1_head_fa.
Qed.

Lemma flat_map_nil {A B : Type} (f : A -> list B) (l : list A) :
  flat_map f l = [] <-> forall x, In x l -> f x = [].
Proof.
  induction l as [|x l IH]; simpl; [done|]. split.
  - intros H. apply app_eq_nil in H as [Hx Hl]. intros y [<-|Hy]; [done|].
    by apply IH.
  - intros H. rewrite (H x) by (by left). simpl. apply IH. intros y Hy.
    apply H. by right.
Qed.

Lemma plain_entries_nil (records : list SeqRecord) :
  fold_right (fun record text => plain_entry record +:+ text) "" records = "" <->
  records = [].
Proof. destruct records; [done|]. split; discriminate. Qed.

Lemma main_plain (listing : list (string * list SeqRecord)) :
  main listing =
  Ok (fold_right (fun record text => plain_entry record +:+ text) ""
        (sorted_records (records listing))).
Proof.
  unfold main. apply write_plain_entries. intros record Hr.
  apply (merge_records_description listing).
  by apply (proj1 (sorted_In _ _ _ _) Hr).
Qed.

End MergeMore.

(** X8: for a file that Merge takes, the prefix it gives the identifiers is
    the file name without its [.fasta] or [.fa]; so two such files give the
    same prefix only when they are the same file or the [.fasta] and the
    [.fa] of one name. *)
Theorem merge_prefix_is_name_without_extension :
  (forall file_name : string,
     Py.endswith_any file_name [".fasta"; ".fa"] = true ->
     file_name = Py.rsplit1_head "." file_name +:+ ".fasta" \/
     file_name = Py.rsplit1_head "." file_name +:+ ".fa") /\
  (forall file_name1 file_name2 : string,
     Py.endswith_any file_name1 [".fasta"; ".fa"] = true ->
     Py.endswith_any file_name2 [".fasta"; ".fa"] = true ->
     Py.rsplit1_head "." file_name1 = Py.rsplit1_head "." file_name2 ->
     file_name1 = file_name2 \/
     exists stem,
       file_name1 = stem +:+ ".fasta" /\ file_name2 = stem +:+ ".fa" \/
       file_name1 = stem +:+ ".fa" /\ file_name2 = stem +:+ ".fasta").
Proof.
  split; [apply qualifying_name|].
  intros f1 f2 H1 H2 Heq.
  destruct (qualifying_name f1 H1) as [E1|E1], (qualifying_name f2 H2) as [E2|E2].
  - left. rewrite E1, E2. by rewrite Heq.
  - right. exists (Py.rsplit1_head "." f1). left. split; [done|]. by rewrite Heq.
  - right. exists (Py.rsplit1_head "." f1). right. split; [done|]. by rewrite Heq.
  - left. rewrite E1, E2. by rewrite Heq.
Qed.

Lemma merge_prefix_is_name_without_extension_witness :
  "a.b.fasta" = Py.rsplit1_head "." "a.b.fasta" +:+ ".fasta" \/
  "a.b.fasta" = Py.rsplit1_head "." "a.b.fasta" +:+ ".fa".
Proof.
  apply (proj1 merge_prefix_is_name_without_extension "a.b.fasta"). reflexivity.
Defined.

(** X9: Merge never aborts on the records it is given, and what it writes
    is empty exactly when every file it takes holds no record: a directory
    without FASTA files gives an empty output file, not an error. *)
Theorem merge_empty_output (listing : list (string * list SeqRecord)) :
  (exists text, merge_fasta_files.main listing = Ok text) /\
  (merge_fasta_files.main listing = Ok "" <->
   forall (file_name : string) (input : list SeqRecord),
     In (file_name, input) listing ->
     Py.endswith_any file_name [".fasta"; ".fa"] = true -> input = []).
Proof.
  rewrite main_plain. split; [by eexists|].
  assert (Hnil : merge_fasta_files.sorted_records (merge_fasta_files.records listing) = []
                 <-> merge_fasta_files.records listing = []).
  { split; intros H.
    - apply Permutation_nil. rewrite <- H. apply natsorted_perm.
    - by rewrite H. }
  split.
  - intros [= H]. apply plain_entries_nil, Hnil in H.
    rewrite records_flat_map_all in H.
    intros file_name input Hin He.
    pose proof (proj1 (flat_map_nil _ _) H (file_name, input) Hin) as Hx.
    cbn [fst snd] in Hx. rewrite He in Hx. by destruct input.
  - intros H. f_equal. apply plain_entries_nil, Hnil.
    rewrite records_flat_map_all. apply flat_map_nil. intros [file_name input] Hin.
    cbn [fst snd]. destruct (Py.endswith_any file_name [".fasta"; ".fa"]) eqn:He;
      [|done].
    by rewrite (H file_name input Hin He).
Qed.

(** ** Sorting: leading zeros *)

Section LeadingZeros.

Import Natsort.

Lemma int_from_zeros (zeros digits : string) :
  Py.all_chars is_zero zeros = true ->
  int_from 0 (zeros +:+ digits) = int_from 0 digits.
Proof.
  induction zeros as [|c zeros IH]; [done|]. simpl. rewrite andb_true_iff.
  intros [Hc Hz]. unfold is_zero in Hc. apply Ascii.eqb_eq in Hc as ->.
  rewrite ?str_app_cons. simpl. by apply IH.
Qed.

Lemma zeros_digits (zeros : string) :
  Py.all_chars is_zero zeros = true -> Py.all_chars Py.isdigit zeros = true.
Proof.
  apply all_chars_impl. intros c Hc. unfold is_zero in Hc.
  by apply Ascii.eqb_eq in Hc as ->.
Qed.

End LeadingZeros.

(** X10: leading zeros do not count: after the same text, a run of digits
    with zeros in front has the key of the run without them, so two records
    named so are written in the order in which they came. *)
Theorem leading_zeros_tie (text zeros digits : string) (r1 r2 : SeqRecord) :
  Natsort.nonempty text = true -> Py.all_chars notdigit text = true ->
  Py.all_chars is_zero zeros = true ->
  Natsort.nonempty digits = true -> Py.all_chars Py.isdigit digits = true ->
  id r1 = text +:+ zeros +:+ digits -> id r2 = text +:+ digits ->
  natural_key (id r1) = natural_key (id r2) /\
  merge_fasta_files.sorted_records [r1; r2] = [r1; r2] /\
  merge_fasta_files.sorted_records [r2; r1] = [r2; r1].
Proof.
  intros Hnt Ht Hz Hnd Hd H1 H2.
  assert (Hk : natural_key (id r1) = natural_key (id r2)).
  { rewrite H1, H2.
    rewrite (natural_key_text_digits text (zeros +:+ digits)); try done.
    - rewrite (natural_key_text_digits text digits) by done.
      unfold Natsort.int. by rewrite int_from_zeros.
    - destruct zeros; [done|done].
    - rewrite all_chars_app_and. by rewrite (zeros_digits zeros Hz), Hd. }
  split; [done|].
  unfold merge_fasta_files.sorted_records, Natsort.natsorted. simpl.
  fold (natural_key (id r1)) (natural_key (id r2)). rewrite Hk.
  unfold natural_key. by rewrite natsort_lt_irrefl.
Qed.

(** ** The presence table: shape *)

Section TableShape.

Import generate_protein_table.

Lemma total_setdefault_append (k v : string) (d : list (string * list string)) :
  total_statuses (Py.odict_setdefault_append k v d) = S (total_statuses d).
Proof.
  unfold total_statuses. induction d as [|[k' vs] d IH]; simpl; [done|].
  destruct (String.eqb k' k); simpl.
  - rewrite length_app. simpl. lia.
  - rewrite IH. lia.
Qed.

Lemma nonempty_setdefault_append (k v : string) (d : list (string * list string)) :
  Forall (fun item => snd item <> []) d ->
  Forall (fun item => snd item <> []) (Py.odict_setdefault_append k v d).
Proof.
  induction 1 as [|[k' vs] d Hx Hd IH]; simpl.
  - by repeat constructor.
  - destruct (String.eqb k' k); constructor; try done.
    simpl. by destruct vs.
Qed.

Lemma for_each_read_line_shape (lines : list string)
    (acc info : list (string * list string)) :
  for_each read_line acc lines = Ok info ->
  total_statuses info = total_statuses acc + length lines /\
  (Forall (fun item => snd item <> []) acc ->
   Forall (fun item => snd item <> []) info).
Proof.
  revert acc. induction lines as [|line lines IH]; intros acc; simpl.
  - intros [= ->]. split; [lia|done].
  - pose proof (status_line_outcome acc line) as Hl.
    destruct (Py.split (Py.strip line)) as [|a [|b [|c rest]]];
      rewrite Hl; simpl; try done.
    intros H. destruct (IH _ H) as [Ht Hn]. split.
    + rewrite Ht, total_setdefault_append. lia.
    + intros Hacc. by apply Hn, nonempty_setdefault_append.
Qed.

Lemma protein_info_shape (files : list (string * list string))
    (info : list (string * list string)) :
  protein_info files = Ok info ->
  total_statuses info = length (flat_map snd files) /\
  Forall (fun item => snd item <> []) info /\
  List.NoDup (map fst info).
Proof.
  intros H. pose proof (protein_info_rows files info H) as Hrows.
  unfold protein_info, read_file in H.
  rewrite (for_each_nested read_line snd) in H.
  destruct (for_each_read_line_shape _ _ _ H) as [Ht Hn].
  split; [exact Ht|]. split; [by apply Hn|].
  rewrite Hrows, map_map. simpl. rewrite map_id. apply first_seen_NoDup.
Qed.

Lemma status_pairs_app (l1 l2 : list string) :
  status_pairs (l1 ++ l2) = status_pairs l1 ++ status_pairs l2.
Proof. unfold status_pairs. apply flat_map_app. Qed.

Lemma statuses_of_app (p1 p2 : list (string * string)) (q : string) :
  statuses_of (p1 ++ p2) q = statuses_of p1 q ++ statuses_of p2 q.
Proof. unfold statuses_of. by rewrite List.filter_app, map_app. Qed.

(** The statuses of a protein are those of the first file, then those of
    the second, and so on. *)
Lemma statuses_of_files (files : list (string * list string)) (q : string) :
  statuses_of (status_pairs (flat_map snd files)) q =
  flat_map (fun file => statuses_of (status_pairs (snd file)) q) files.
Proof.
  induction files as [|file files IH]; simpl; [done|].
  by rewrite status_pairs_app, statuses_of_app, IH.
Qed.

Lemma length_one_hd (l : list string) : length l = 1 -> l = [hd "" l].
Proof. by destruct l as [|x [|y l]]. Qed.

Lemma status_pairs_perm (l1 l2 : list (string * list string)) :
  l1 ≡ₚ l2 ->
  status_pairs (flat_map snd l1) ≡ₚ status_pairs (flat_map snd l2).
Proof.
  intros H. unfold status_pairs. apply Permutation_flat_map.
  by apply Permutation_flat_map.
Qed.

Lemma files_perm (listing : list (string * list string)) :
  files listing ≡ₚ listing.
Proof. apply sorted_perm. Qed.

Lemma files_unique (l1 l2 : list (string * list string)) :
  l1 ≡ₚ l2 ->
  List.NoDup (map (fun file => Py.lower (fst file)) l1) ->
  files l1 = files l2.
Proof.
  intros Hp Hnd.
  apply (StronglySorted_perm_eq (fun file : string * list string => Py.lower (fst file))
                                String.ltb).
  - intros x. apply string_ltb_irrefl.
  - intros x y Hx Hy Hxy Hyx.
    apply (NoDup_map_inj_In (fun file : string * list string => Py.lower (fst file)) l1);
      [done| | |].
    + exact (proj1 (sorted_In _ _ l1 x) Hx).
    + exact (proj1 (sorted_In _ _ l1 y) Hy).
    + apply String.leb_antisym; by apply string_ltb_leb.
  - apply files_sorted.
  - apply files_sorted.
  - by rewrite !files_perm.
Qed.

End TableShape.

(** X11: in the table every protein has one row, every row has at least
    one number after the protein, every number is 0 or 1, the numbers of
    all rows together are as many as the lines of all files, and the header
    has one cell more than there are files: no line is dropped and none
    counts twice. *)
Theorem presence_table_counts (listing : list (string * list string))
    (table : list (list generate_protein_table.cell)) :
  generate_protein_table.main listing = Ok table ->
  exists header rows proteins,
    table = header :: rows /\
    length header = S (length listing) /\
    map (hd (generate_protein_table.CStr "")) rows =
      map generate_protein_table.CStr proteins /\
    List.NoDup proteins /\
    Forall (fun row => 2 <= length row) rows /\
    Forall (fun row =>
              Forall (fun c => c = generate_protein_table.CInt 0 \/
                               c = generate_protein_table.CInt 1) (tl row)) rows /\
    list_sum (map (fun row => length row - 1) rows) =
      length (flat_map snd listing).
Proof.
  unfold generate_protein_table.main.
  destruct (generate_protein_table.protein_info
              (generate_protein_table.files listing)) as [info|e] eqn:Hi;
    simpl; [|done].
  intros [= <-]. destruct (protein_info_shape _ _ Hi) as [Ht [Hn Hnd]].
  eexists _, _, (map fst info). split; [reflexivity|].
  split.
  { unfold generate_protein_table.header_row. simpl. rewrite length_map.
    f_equal. apply Permutation_length, files_perm. }
  split; [by rewrite !map_map|]. split; [done|]. split.
  { apply Forall_map. eapply List.Forall_impl; [|exact Hn]. intros [p sts] Hs.
    simpl in *. rewrite length_map. destruct sts; [done|simpl; lia]. }
  split.
  { apply Forall_map. apply Forall_forall. intros [p sts] _. simpl.
    apply Forall_map. apply Forall_forall. intros st _.
    destruct (String.eqb st "missing"); [by left|by right]. }
  rewrite map_map. simpl.
  rewrite (Permutation_length
             (Permutation_flat_map snd (Permutation_sym (files_perm listing)))).
  rewrite <- Ht. unfold total_statuses. f_equal. apply map_ext. intros [p sts].
  simpl. rewrite length_map. lia.
Qed.

Lemma presence_table_counts_witness :
  exists header rows proteins,
    [[generate_protein_table.CStr ""; generate_protein_table.CStr "speciesA";
      generate_protein_table.CStr "speciesB"];
     [generate_protein_table.CStr "p1"; generate_protein_table.CInt 1;
      generate_protein_table.CInt 0];
     [generate_protein_table.CStr "p2"; generate_protein_table.CInt 0]] =
    header :: rows /\
    length header = 3 /\
    map (hd (generate_protein_table.CStr "")) rows =
      map generate_protein_table.CStr proteins /\
    List.NoDup proteins /\
    Forall (fun row => 2 <= length row) rows /\
    Forall (fun row =>
              Forall (fun c => c = generate_protein_table.CInt 0 \/
                               c = generate_protein_table.CInt 1) (tl row)) rows /\
    list_sum (map (fun row => length row - 1) rows) = 3.
Proof.
  apply (presence_table_counts
           [("speciesB", ["p1 missing" +:+ LF]);
            ("speciesA", ["p1 present" +:+ LF; "p2 missing" +:+ LF])]).
  reflexivity.
Defined.

Lemma row_aligned (files : list (string * list string)) (protein : string) :
  (forall file, In file files ->
                length (statuses_of (status_pairs (snd file)) protein) = 1) ->
  generate_protein_table.row protein
    (flat_map (fun file => statuses_of (status_pairs (snd file)) protein) files) =
  generate_protein_table.CStr protein ::
  map (fun file =>
         generate_protein_table.CInt
           (if String.eqb (hd "" (statuses_of (status_pairs (snd file)) protein))
                          "missing"
            then 0 else 1)) files.
Proof.
  unfold generate_protein_table.row. simpl. intros H. f_equal.
  induction files as [|file files IH]; simpl; [done|].
  rewrite (length_one_hd _ (H file (or_introl eq_refl))) at 1. simpl. f_equal.
  apply IH. intros f Hf. apply H. by right.
Qed.

(** X12: when every file names every protein of the directory on exactly
    one line, the table is rectangular and its columns are those of the
    header: the row of a protein holds, file by file in the order of the
    header, the number for the status that the file gives it. *)
Theorem presence_table_aligned (listing : list (string * list string))
    (table : list (list generate_protein_table.cell)) :
  generate_protein_table.main listing = Ok table ->
  (forall (file : string * list string) (protein : string),
     In file listing ->
     In protein (map fst (status_pairs (flat_map snd listing))) ->
     length (statuses_of (status_pairs (snd file)) protein) = 1) ->
  table =
    (generate_protein_table.CStr "" ::
       map (fun file => generate_protein_table.CStr (fst file))
           (generate_protein_table.files listing)) ::
    map (fun protein =>
           generate_protein_table.CStr protein ::
           map (fun file =>
                  generate_protein_table.CInt
                    (if String.eqb
                          (hd "" (statuses_of (status_pairs (snd file)) protein))
                          "missing"
                     then 0 else 1))
               (generate_protein_table.files listing))
        (first_seen
           (map fst (status_pairs
                       (flat_map snd (generate_protein_table.files listing))))) /\
  Forall (fun row => length row = S (length listing)) table.
Proof.
  intros Hmain Hone.
  assert (Hlen : length (generate_protein_table.files listing) = length listing).
  { apply Permutation_length, files_perm. }
  assert (Htable : table =
    (generate_protein_table.CStr "" ::
       map (fun file => generate_protein_table.CStr (fst file))
           (generate_protein_table.files listing)) ::
    map (fun protein =>
           generate_protein_table.CStr protein ::
           map (fun file =>
                  generate_protein_table.CInt
                    (if String.eqb
                          (hd "" (statuses_of (status_pairs (snd file)) protein))
                          "missing"
                     then 0 else 1))
               (generate_protein_table.files listing))
        (first_seen
           (map fst (status_pairs
                       (flat_map snd (generate_protein_table.files listing)))))).
  { unfold generate_protein_table.main in Hmain.
    destruct (generate_protein_table.protein_info
                (generate_protein_table.files listing)) as [info|e] eqn:Hi;
      simpl in Hmain; [|done].
    injection Hmain as <-. apply protein_info_rows in Hi. rewrite Hi.
    unfold generate_protein_table.header_row. simpl. f_equal.
    rewrite map_map. apply map_ext_in. intros protein Hp. simpl. f_equal.
    rewrite statuses_of_files.
    assert (Hin : In protein (map fst (status_pairs (flat_map snd listing)))).
    { apply (proj1 (first_seen_In _ _)) in Hp.
      eapply Permutation_in; [|exact Hp]. apply Permutation_map.
      apply status_pairs_perm, files_perm. }
    assert (Hfiles : forall file, In file (generate_protein_table.files listing) ->
                                  In file listing).
    { intros file. apply Permutation_in, files_perm. }
    apply row_aligned. intros file Hf. apply Hone; [by apply Hfiles|done]. }
  split; [exact Htable|]. rewrite Htable. constructor.
  - simpl. rewrite length_map. by rewrite Hlen.
  - apply Forall_map. apply Forall_forall. intros protein _. simpl.
    rewrite length_map. by rewrite Hlen.
Qed.

Lemma presence_table_aligned_witness :
  [[generate_protein_table.CStr ""; generate_protein_table.CStr "speciesA";
    generate_protein_table.CStr "speciesB"];
   [generate_protein_table.CStr "p1"; generate_protein_table.CInt 1;
    generate_protein_table.CInt 0];
   [generate_protein_table.CStr "p2"; generate_protein_table.CInt 0;
    generate_protein_table.CInt 1]] =
    (generate_protein_table.CStr "" ::
       map (fun file => generate_protein_table.CStr (fst file))
           (generate_protein_table.files
              [("speciesB", ["p2 found" +:+ LF; "p1 missing" +:+ LF]);
               ("speciesA", ["p1 present" +:+ LF; "p2 missing" +:+ LF])])) ::
    map (fun protein =>
           generate_protein_table.CStr protein ::
           map (fun file =>
                  generate_protein_table.CInt
                    (if String.eqb
                          (hd "" (statuses_of (status_pairs (snd file)) protein))
                          "missing"
                     then 0 else 1))
               (generate_protein_table.files
                  [("speciesB", ["p2 found" +:+ LF; "p1 missing" +:+ LF]);
                   ("speciesA", ["p1 present" +:+ LF; "p2 missing" +:+ LF])]))
        (first_seen
           (map fst (status_pairs
                       (flat_map snd
                          (generate_protein_table.files
                             [("speciesB", ["p2 found" +:+ LF; "p1 missing" +:+ LF]);
                              ("speciesA", ["p1 present" +:+ LF; "p2 missing" +:+ LF])]))))) /\
  Forall (fun row => length row = 3)
    [[generate_protein_table.CStr ""; generate_protein_table.CStr "speciesA";
      generate_protein_table.CStr "speciesB"];
     [generate_protein_table.CStr "p1"; generate_protein_table.CInt 1;
      generate_protein_table.CInt 0];
     [generate_protein_table.CStr "p2"; generate_protein_table.CInt 0;
      generate_protein_table.CInt 1]].
Proof.
  apply (presence_table_aligned
           [("speciesB", ["p2 found" +:+ LF; "p1 missing" +:+ LF]);
            ("speciesA", ["p1 present" +:+ LF; "p2 missing" +:+ LF])]).
  - reflexivity.
  - intros file protein Hf Hp. simpl in Hf, Hp.
    destruct Hf as [<-|[<-|[]]]; destruct Hp as [<-|[<-|[<-|[<-|[]]]]];
      reflexivity.
Defined.

(** X13: the table does not depend on the order in which the directory is
    listed, when no two file names are the same once lower-cased. *)
Theorem presence_table_listing_order (listing1 listing2 : list (string * list string)) :
  listing1 ≡ₚ listing2 ->
  List.NoDup (map (fun file => Py.lower (fst file)) listing1) ->
  generate_protein_table.main listing1 = generate_protein_table.main listing2.
Proof.
  intros Hp Hnd. unfold generate_protein_table.main.
  by rewrite (files_unique listing1 listing2 Hp Hnd).
Qed.

Lemma presence_table_listing_order_witness :
  generate_protein_table.main
    [("speciesB", ["p1 missing" +:+ LF]);
     ("speciesA", ["p1 present" +:+ LF; "p2 missing" +:+ LF])] =
  generate_protein_table.main
    [("speciesA", ["p1 present" +:+ LF; "p2 missing" +:+ LF]);
     ("speciesB", ["p1 missing" +:+ LF])].
Proof.
  apply presence_table_listing_order.
  - apply perm_swap.
  - vm_compute. repeat constructor; simpl; intuition discriminate.
Defined.

Lemma leading_zeros_tie_witness :
  natural_key (id (fasta_record "gene007 kinase" "MKV")) =
  natural_key (id (fasta_record "gene7" "AAA")) /\
  merge_fasta_files.sorted_records
    [fasta_record "gene007 kinase" "MKV"; fasta_record "gene7" "AAA"] =
  [fasta_record "gene007 kinase" "MKV"; fasta_record "gene7" "AAA"] /\
  merge_fasta_files.sorted_records
    [fasta_record "gene7" "AAA"; fasta_record "gene007 kinase" "MKV"] =
  [fasta_record "gene7" "AAA"; fasta_record "gene007 kinase" "MKV"].
Proof.
  apply (leading_zeros_tie "gene" "00" "7"); reflexivity.
Defined.

(** ** Merge: nothing lost *)

Section MergeResidues.

Lemma map_flat_map {A B C : Type} (g : B -> C) (f : A -> list B) (l : list A) :
  map g (flat_map f l) = flat_map (fun x => map g (f x)) l.
Proof.
  induction l as [|x l IH]; simpl; [done|]. by rewrite map_app, IH.
Qed.

Lemma records_of_taken (listing : list (string * list SeqRecord)) :
  merge_fasta_files.records listing =
  flat_map (fun entry => map (merge_fasta_files.gene_record (fst entry)) (snd entry))
           (List.filter (fun entry => Py.endswith_any (fst entry) [".fasta"; ".fa"])
                        listing).
Proof.
  rewrite records_flat_map_all.
  apply (flat_map_filter
           (fun entry => Py.endswith_any (fst entry) [".fasta"; ".fa"])
           (fun entry => map (merge_fasta_files.gene_record (fst entry)) (snd entry))).
Qed.

End MergeResidues.

(** X15: Merge neither drops nor repeats nor alters a sequence: the
    residues it writes are, up to their order, those of the records of the
    files it takes, and it writes as many records as these files hold. *)
Theorem merge_keeps_all_records (listing : list (string * list SeqRecord)) :
  map seq (merge_fasta_files.sorted_records (merge_fasta_files.records listing)) ≡ₚ
    flat_map (fun entry => map seq (snd entry))
             (List.filter (fun entry => Py.endswith_any (fst entry) [".fasta"; ".fa"])
                          listing) /\
  length (merge_fasta_files.sorted_records (merge_fasta_files.records listing)) =
    list_sum (map (fun entry => length (snd entry))
                  (List.filter (fun entry => Py.endswith_any (fst entry) [".fasta"; ".fa"])
                               listing)).
Proof.
  split.
  - etrans; [apply Permutation_map, natsorted_perm|].
    rewrite records_of_taken, map_flat_map.
    erewrite flat_map_ext; [reflexivity|]. intros entry. simpl.
    by rewrite map_map.
  - unfold merge_fasta_files.sorted_records.
    rewrite (Permutation_length (natsorted_perm _ _)).
    rewrite records_of_taken, length_flat_map. f_equal. apply map_ext.
    intros entry. by rewrite length_map.
Qed.
